(** * Last-mile delivery dashboard: the data pipeline of [app.py]

    The script is one linear pipeline: load the CSV, resolve the column
    names, clean, derive [late] and [age_group], filter on five categorical
    fields, aggregate and render.  Each stage is embedded below as the
    function the script computes, in the order of the script.

    Conventions of the embedding.
    - Text is [string].  [Text.lower], [Text.strip] and [Text.capitalize] are
      Python's [str.lower], [str.strip] and [str.capitalize] on ASCII text.
      Python's methods also know the letters and the whitespace outside
      ASCII; the column resolution is therefore given a second time with
      [str.lower] and [str.strip] as parameters ([find_col_by]), and the
      later stages are characterised for any table and any mapping of the
      fields handed to them.
    - A cell that pandas holds as NaN is [None].
    - Numbers come in two layers.  [float] is an exact rational or NaN: the
      mean and the variance without rounding, used where the structure of
      the pipeline is at stake.  [Float64] is binary64 as numpy computes,
      operation by operation, with rounding, infinities and NaN: the late
      flag of lines 91-93 is characterised there.
    - An exception that nothing catches ends the run, and Streamlit shows it
      on the page.
    - [pd.to_numeric] and the multiselect widget belong to libraries, not to
      the script: they are parameters of the development. *)

From Stdlib Require Import List Bool Arith ZArith QArith Qabs Qreals Reals Psatz.
From Stdlib Require Import Ascii String DecimalString.
From Stdlib Require Import Sorted Permutation.
From Stdlib Require Floats.
Import ListNotations.

Local Open Scope string_scope.
Local Open Scope list_scope.

(** ** Text helpers: [str.lower], [str.strip], [str.capitalize] *)

Module Text.

Definition is_upper (c : ascii) : bool :=
  let n := nat_of_ascii c in (65 <=? n)%nat && (n <=? 90)%nat.

Definition is_lower (c : ascii) : bool :=
  let n := nat_of_ascii c in (97 <=? n)%nat && (n <=? 122)%nat.

Definition lower_char (c : ascii) : ascii :=
  if is_upper c then ascii_of_nat (nat_of_ascii c + 32) else c.

Definition upper_char (c : ascii) : ascii :=
  if is_lower c then ascii_of_nat (nat_of_ascii c - 32) else c.

(** Python's whitespace in the ASCII range: TAB, LF, VT, FF, CR, the four
    separators 0x1c-0x1f and the space. *)
Definition is_space (c : ascii) : bool :=
  let n := nat_of_ascii c in
  ((9 <=? n)%nat && (n <=? 13)%nat) || ((28 <=? n)%nat && (n <=? 32)%nat).

Fixpoint map_chars (f : ascii -> ascii) (s : string) : string :=
  match s with
  | EmptyString => EmptyString
  | String c s' => String (f c) (map_chars f s')
  end.

Definition lower (s : string) : string := map_chars lower_char s.

Fixpoint lstrip (s : string) : string :=
  match s with
  | EmptyString => EmptyString
  | String c s' => if is_space c then lstrip s' else s
  end.

(** [rstrip] drops the trailing run of whitespace: a character stays when
    something after it stays or when it is not whitespace itself. *)
Fixpoint rstrip (s : string) : string :=
  match s with
  | EmptyString => EmptyString
  | String c s' =>
      match rstrip s' with
      | EmptyString => if is_space c then EmptyString else String c EmptyString
      | rest => String c rest
      end
  end.

Definition strip (s : string) : string := rstrip (lstrip s).

Definition capitalize (s : string) : string :=
  match s with
  | EmptyString => EmptyString
  | String c s' => String (upper_char c) (lower s')
  end.

(** Truth value of a Python string: only the empty string is false. *)
Definition nonempty (s : string) : bool :=
  match s with EmptyString => false | String _ _ => true end.

End Text.

(** ** Column resolution: [variants] and [find_col] (lines 34-56) *)

Definition variants : list (string * list string) :=
  [ ("delivery_time", ["Delivery_Time"; "Delivery Time"; "Time Taken"; "delivery_time"]);
    ("weather",       ["Weather"; "weather"]);
    ("traffic",       ["Traffic"; "traffic"]);
    ("vehicle",       ["Vehicle"; "vehicle"; "Vehicle Type"]);
    ("agent_age",     ["Agent_Age"; "Agent Age"; "Age"]);
    ("agent_rating",  ["Agent_Rating"; "Agent Rating"; "Rating"]);
    ("area",          ["Area"; "area"; "Region"]);
    ("category",      ["Category"; "category"; "Product Category"]) ].

(** The test of line 51: [c.lower().strip() == o.lower().strip()]. *)
Definition same_name (c o : string) : bool :=
  String.eqb (Text.strip (Text.lower c)) (Text.strip (Text.lower o)).

(** [if found:] -- [None] and the empty string are false. *)
Definition truthy (found : option string) : bool :=
  match found with
  | Some s => Text.nonempty s
  | None => false
  end.

(** The inner loop (lines 50-53): the first header equal to the spelling [o]
    replaces [found]; with no such header [found] keeps its value. *)
Fixpoint scan_cols (o : string) (df_cols : list string) (found : option string)
  : option string :=
  match df_cols with
  | [] => found
  | c :: cs => if same_name c o then Some c else scan_cols o cs found
  end.

(** The loop over the spellings (lines 49-54), left as soon as [found] is
    true. *)
Fixpoint scan_options (options df_cols : list string) (found : option string)
  : option string :=
  match options with
  | [] => found
  | o :: os =>
      let found' := scan_cols o df_cols found in
      if truthy found' then found' else scan_options os df_cols found'
  end.

(** [find_col]: one entry per canonical field, in the order of [variants]. *)
Definition find_col (variants : list (string * list string)) (df_cols : list string)
  : list (string * option string) :=
  map (fun kv => (fst kv, scan_options (snd kv) df_cols None)) variants.

(** [mapping[key]] for a key of the mapping. *)
Fixpoint lookup (key : string) (mapping : list (string * option string))
  : option string :=
  match mapping with
  | [] => None
  | (k, v) :: rest => if String.eqb k key then v else lookup key rest
  end.

(** [find_col] again, with [str.lower] and [str.strip] as parameters.
    Python's methods act on all of Unicode: [lower] also maps letters
    outside ASCII and [strip] also removes the no-break space and the other
    Unicode whitespace.  [find_col_by lower strip] is the function of lines
    45-56 for any such pair, and [find_col] above is
    [find_col_by Text.lower Text.strip]. *)
Section By.

Variables lower strip : string -> string.

Definition same_name_by (c o : string) : bool :=
  String.eqb (strip (lower c)) (strip (lower o)).

Fixpoint scan_cols_by (o : string) (df_cols : list string) (found : option string)
  : option string :=
  match df_cols with
  | [] => found
  | c :: cs => if same_name_by c o then Some c else scan_cols_by o cs found
  end.

Fixpoint scan_options_by (options df_cols : list string) (found : option string)
  : option string :=
  match options with
  | [] => found
  | o :: os =>
      let found' := scan_cols_by o df_cols found in
      if truthy found' then found' else scan_options_by os df_cols found'
  end.

Definition find_col_by (variants : list (string * list string))
  (df_cols : list string) : list (string * option string) :=
  map (fun kv => (fst kv, scan_options_by (snd kv) df_cols None)) variants.

End By.

(** ** Tables and numbers *)

(** A cell of a text column: a string, or NaN. *)
Definition cell := option string.

(** A float64 value: a number, or NaN. *)
Definition float := option Q.

(** The table [pd.read_csv(DATA_PATH, dtype=str)] returns: the header row and
    the records, each a list of cells in header order; a cell beyond the end
    of a short record is NaN. *)
Record DataFrame := mkDataFrame {
  columns : list string;
  data : list (list cell)
}.

(** A record of [work]: the eight canonical fields, under the row label
    pandas keeps through [dropna]. *)
Record Row := mkRow {
  index : nat;
  delivery_time : float;
  weather : cell;
  traffic : cell;
  vehicle : cell;
  agent_age : float;
  agent_rating : float;
  area : cell;
  category : cell
}.

(** A record of [work] after feature engineering. *)
Record Derived := mkDerived {
  base : Row;
  late : Z;
  age_group : cell
}.

(** ** Basic cleaning (lines 26-31) *)

(** [astype(str)] turns NaN into the text "nan". *)
Definition astype_str (c : cell) : string :=
  match c with
  | Some s => s
  | None => "nan"
  end.

(** [.replace({...})]: the empty text, "nan" and "None" become NaN. *)
Definition replace_missing (s : string) : cell :=
  if String.eqb s EmptyString || String.eqb s "nan" || String.eqb s "None" then None
  else Some s.

Definition normalize_cell (c : cell) : cell := replace_missing (astype_str c).

Definition basic_cleaning (df_raw : DataFrame) : DataFrame :=
  {| columns := map Text.strip (columns df_raw);
     data := map (map normalize_cell) (data df_raw) |}.

(** ** Statistics of a float column *)

Definition Qlt_bool (x y : Q) : bool := negb (Qle_bool y x).

Fixpoint dropna_floats (xs : list float) : list Q :=
  match xs with
  | [] => []
  | Some q :: rest => q :: dropna_floats rest
  | None :: rest => dropna_floats rest
  end.

Definition Qsum (xs : list Q) : Q := fold_right Qplus 0%Q xs.

Definition count (xs : list Q) : Q := inject_Z (Z.of_nat (List.length xs)).

(** [Series.mean()]: NaN cells are skipped; the mean of nothing is NaN. *)
Definition mean (col : list float) : float :=
  match dropna_floats col with
  | [] => None
  | xs => Some (Qsum xs / count xs)%Q
  end.

(** [Series.var()] with pandas' default [ddof=1]: the sum of the squared
    deviations over [n - 1], NaN when fewer than two values are left. *)
Definition var (col : list float) : float :=
  match dropna_floats col with
  | [] => None
  | [_] => None
  | xs =>
      let avg := (Qsum xs / count xs)%Q in
      let sqr := map (fun x => ((avg - x) * (avg - x))%Q) xs in
      Some (Qsum sqr / (count xs - 1))%Q
  end.

(** [x > mean_time + std_time], where [std_time] is the square root of
    [var_time]: decided on the rationals as [mean_time < x] and
    [var_time < (x - mean_time)^2].  A comparison with NaN is false. *)
Definition exceeds (x mean_time var_time : float) : bool :=
  match x, mean_time, var_time with
  | Some x, Some m, Some v =>
      Qlt_bool m x && Qlt_bool v ((x - m) * (x - m))%Q
  | _, _, _ => false
  end.

(** ** Feature engineering (lines 91-94) *)

(** [np.where(cond, 1, 0)] on one value. *)
Definition where_1_0 (cond : bool) : Z := if cond then 1%Z else 0%Z.

Definition bins : list Q := [0; 24; 40; 100]%Q.
Definition labels : list string := ["<25"; "25–40"; "40+"].

(** [bins.searchsorted(x, side="left")]: how many edges lie below [x]. *)
Definition searchsorted_left (edges : list Q) (x : Q) : nat :=
  List.length (filter (fun b => Qlt_bool b x) edges).

(** [pd.cut(x, bins, labels, include_lowest=True)] on one value: the bin
    number is the left insertion point, the lowest edge itself is put into
    the first bin, and a value below the first or above the last edge, or a
    NaN, gets no label. *)
Definition cut (edges : list Q) (names : list string) (x : float) : cell :=
  match x with
  | None => None
  | Some q =>
      let ids :=
        if Qeq_bool q (hd 0%Q edges) then 1%nat else searchsorted_left edges q in
      if (ids =? 0)%nat || (ids =? List.length edges)%nat then None
      else nth_error names (ids - 1)
  end.

Definition feature_engineering (work : list Row) : list Derived :=
  let mean_time := mean (map delivery_time work) in
  let var_time := var (map delivery_time work) in
  map (fun r =>
         {| base := r;
            late := where_1_0 (exceeds (delivery_time r) mean_time var_time);
            age_group := cut bins labels (agent_age r) |})
      work.

(** ** Lines 91-93 in binary64

    [work["delivery_time"]] is a float64 column, and the mean, the standard
    deviation and the comparison of lines 91-93 are computed in binary64,
    with its rounding, its infinities and its NaN.  This module follows
    pandas and numpy operation by operation, on the primitive floats:
    - [Series.mean()] is [nanops.nanmean]: NaN cells count for nothing and
      are summed as 0, and the sum is divided by the count;
    - [Series.std()] is the square root of [nanops.nanvar] with pandas'
      default [ddof=1]: the mean first, then the squared deviations from it,
      summed and divided by [count - ddof]; with [count <= ddof] both the
      count and the divisor are NaN;
    - a sum is [np.add.reduce] on a contiguous array: numpy's pairwise
      summation, started from 0.0.
    pandas computes so when the optional [bottleneck] package is not
    installed.  A column of integers is converted to float64 before any of
    it. *)

Module Float64.

Definition isnan (x : PrimFloat.float) : bool := negb (PrimFloat.eqb x x).

(** An integer from 0 to 2^63 - 1 as a float, as C converts it. *)
Definition of_Z (z : Z) : PrimFloat.float :=
  PrimFloat.of_uint63 (Uint63.of_Z z).

Definition of_nat (n : nat) : PrimFloat.float := of_Z (Z.of_nat n).

(** [r[i] += a[i]] for the eight accumulators of the unrolled loop. *)
Fixpoint add_each (r xs : list PrimFloat.float) : list PrimFloat.float :=
  match r, xs with
  | a :: r', x :: xs' => PrimFloat.add a x :: add_each r' xs'
  | _, _ => r
  end.

(** [blocks] rounds of the unrolled loop: eight values a round. *)
Fixpoint unrolled (blocks : nat) (r a : list PrimFloat.float)
  : list PrimFloat.float * list PrimFloat.float :=
  match blocks with
  | O => (r, a)
  | S k => unrolled k (add_each r (firstn 8 a)) (skipn 8 a)
  end.

(** [res += a[i]], left to right. *)
Definition seq_sum (start : PrimFloat.float) (a : list PrimFloat.float)
  : PrimFloat.float :=
  fold_left PrimFloat.add a start.

(** [((r[0] + r[1]) + (r[2] + r[3])) + ((r[4] + r[5]) + (r[6] + r[7]))]. *)
Definition tree8 (r : list PrimFloat.float) : PrimFloat.float :=
  match r with
  | [r0; r1; r2; r3; r4; r5; r6; r7] =>
      PrimFloat.add
        (PrimFloat.add (PrimFloat.add r0 r1) (PrimFloat.add r2 r3))
        (PrimFloat.add (PrimFloat.add r4 r5) (PrimFloat.add r6 r7))
  | _ => PrimFloat.zero
  end.

(** numpy's [pairwise_sum]: fewer than 8 values are summed left to right;
    up to 128 values go through eight accumulators, the values after the
    last full block of eight added at the end; more values are split in two
    halves, the first a multiple of eight long.  The fuel bounds the depth
    of the splitting; the length of the list is always enough. *)
Fixpoint pairwise_sum (fuel : nat) (a : list PrimFloat.float) : PrimFloat.float :=
  let n := List.length a in
  if (n <? 8)%nat then seq_sum PrimFloat.zero a
  else if (n <=? 128)%nat then
    let '(r, rest) := unrolled (n / 8 - 1) (firstn 8 a) (skipn 8 a) in
    seq_sum (tree8 r) rest
  else
    match fuel with
    | O => seq_sum PrimFloat.zero a
    | S k =>
        let n2 := (n / 2 - (n / 2) mod 8)%nat in
        PrimFloat.add (pairwise_sum k (firstn n2 a)) (pairwise_sum k (skipn n2 a))
    end.

(** [values.sum()]: the reduction starts from the identity 0.0. *)
Definition sum (a : list PrimFloat.float) : PrimFloat.float :=
  PrimFloat.add PrimFloat.zero (pairwise_sum (List.length a) a).

(** [np.putmask(values, mask, 0)]. *)
Definition fill0 (x : PrimFloat.float) : PrimFloat.float :=
  if isnan x then PrimFloat.zero else x.

Definition count (col : list PrimFloat.float) : nat :=
  List.length (filter (fun x => negb (isnan x)) col).

(** [Series.mean()]. *)
Definition mean (col : list PrimFloat.float) : PrimFloat.float :=
  let n := count col in
  if (0 <? n)%nat then PrimFloat.div (sum (map fill0 col)) (of_nat n)
  else PrimFloat.nan.

(** [Series.var(ddof)]. *)
Definition var (ddof : nat) (col : list PrimFloat.float) : PrimFloat.float :=
  let n := count col in
  let few := (n <=? ddof)%nat in
  let cnt := if few then PrimFloat.nan else of_nat n in
  let d := if few then PrimFloat.nan else of_nat (n - ddof) in
  let avg := PrimFloat.div (sum (map fill0 col)) cnt in
  let sqr :=
    map (fun x => if isnan x then PrimFloat.zero
                  else PrimFloat.mul (PrimFloat.sub avg x) (PrimFloat.sub avg x))
        col in
  PrimFloat.div (sum sqr) d.

(** [Series.std()], with the default [ddof=1]. *)
Definition std (col : list PrimFloat.float) : PrimFloat.float :=
  PrimFloat.sqrt (var 1 col).

(** Lines 91-93 on a table whose records carry their delivery time as
    [time] reads it: each record with its flag.  [x > t] is [t < x]. *)
Definition late_flags {A} (time : A -> PrimFloat.float) (work : list A)
  : list (A * Z) :=
  let mean_time := mean (map time work) in
  let std_time := std (map time work) in
  map (fun r => (r, where_1_0 (PrimFloat.ltb (PrimFloat.add mean_time std_time)
                                             (time r))))
      work.



End Float64.

(** ** Filters (lines 98-117) *)

Fixpoint dropna_cells (xs : list cell) : list string :=
  match xs with
  | [] => []
  | Some s :: rest => s :: dropna_cells rest
  | None :: rest => dropna_cells rest
  end.

Definition mem (s : string) (l : list string) : bool := existsb (String.eqb s) l.

(** [unique()]: the distinct values in order of first appearance. *)
Fixpoint unique (xs : list string) : list string :=
  match xs with
  | [] => []
  | x :: rest => x :: filter (fun y => negb (String.eqb x y)) (unique rest)
  end.

Fixpoint insert_sorted (x : string) (l : list string) : list string :=
  match l with
  | [] => [x]
  | y :: rest => if String.leb x y then x :: l else y :: insert_sorted x rest
  end.

(** [sorted(...)] on strings: ascending in the order of the characters. *)
Definition sorted (l : list string) : list string :=
  fold_right insert_sorted [] l.

(** The options of one filter: [sorted(work[col].dropna().unique().tolist())]. *)
Definition filter_values (col : list cell) : list string :=
  sorted (unique (dropna_cells col)).

(** [Series.isin(sel)] on one cell, for a selection of strings. *)
Definition isin (v : cell) (sel : list string) : bool :=
  match v with
  | Some s => mem s sel
  | None => false
  end.

(** The five selections, in the order the script builds them. *)
Record Selections := mkSelections {
  weather_sel : list string;
  traffic_sel : list string;
  vehicle_sel : list string;
  area_sel : list string;
  category_sel : list string
}.

Definition passes (sel : Selections) (r : Derived) : bool :=
  isin (weather (base r)) (weather_sel sel)
  && isin (traffic (base r)) (traffic_sel sel)
  && isin (vehicle (base r)) (vehicle_sel sel)
  && isin (area (base r)) (area_sel sel)
  && isin (category (base r)) (category_sel sel).

Definition filtered (sel : Selections) (work : list Derived) : list Derived :=
  filter (passes sel) work.

(** ** Aggregation and number formatting (lines 119-125, 146-162) *)

(** [filtered.groupby(col, as_index=False)["delivery_time"].mean()]: one line
    per distinct non-missing key, keys ascending. *)
Definition groupby_mean (key : Row -> cell) (rows : list Derived)
  : list (string * float) :=
  map (fun k =>
         (k, mean (map (fun r => delivery_time (base r))
                       (filter (fun r => isin (key (base r)) [k]) rows))))
      (filter_values (map (fun r => key (base r)) rows)).

Definition str_nat (n : nat) : string := NilZero.string_of_uint (Nat.to_uint n).

Definition str_Z (z : Z) : string := NilZero.string_of_uint (N.to_uint (Z.to_N z)).

(** The integer nearest to a non-negative rational, a tie going to the even
    neighbour. *)
Definition round_half_even (q : Q) : Z :=
  let n := Qnum q in
  let d := Zpos (Qden q) in
  let fl := (n / d)%Z in
  let twice := (2 * (n mod d))%Z in
  if (twice <? d)%Z then fl
  else if (d <? twice)%Z then (fl + 1)%Z
  else if Z.even fl then fl else (fl + 1)%Z.

Fixpoint zero_pad (missing : nat) (s : string) : string :=
  match missing with
  | O => s
  | S k => String "0" (zero_pad k s)
  end.

(** [f"{x:.<d>f}"]: NaN prints as "nan"; a number prints with its sign, its
    integer part and [d] decimals. *)
Definition format_fixed (d : nat) (x : float) : string :=
  match x with
  | None => "nan"
  | Some q =>
      let scale := (10 ^ Z.of_nat d)%Z in
      let n := round_half_even (Qabs q * inject_Z scale)%Q in
      let frac := str_Z (n mod scale)%Z in
      (if Qlt_bool q 0 then "-" else EmptyString)
      ++ str_Z (n / scale)%Z
      ++ (match d with
          | O => EmptyString
          | _ => "." ++ zero_pad (d - String.length frac) frac
          end)
  end.

(** Arithmetic on floats: NaN in, NaN out. *)
Definition fmul (x : float) (k : Q) : float :=
  match x with
  | Some q => Some (q * k)%Q
  | None => None
  end.

(** The three figures of lines 123-125, as the texts handed to [metric]. *)
Definition metrics (view : list Derived) : string * string * string :=
  ( format_fixed 2 (mean (map (fun r => delivery_time (base r)) view)),
    format_fixed 2 (mean (map (fun r => agent_rating (base r)) view)),
    (format_fixed 1
       (fmul (mean (map (fun r => Some (inject_Z (late r))) view)) 100) ++ "%")%string ).

(** ** The page: what the script shows, in order

    [exception] is the box Streamlit puts on the page for an exception that
    the script does not catch. *)

Inductive event : Type :=
| title (body : string)
| caption (body : string)
| error (body : string)
| exception (body : string)
| sidebar_header (body : string)
| sidebar_write (body : string)
| sidebar_markdown (body : string)
| sidebar_dataframe (rows : list Row)
| sidebar_multiselect (label : string) (options default : list string)
| write (body : string)
| metric (label value : string)
| markdown (body : string)
| subheader (body : string)
| info (body : string)
| plotly_bar (df : list (string * float)) (x y chart_title : string)
| plotly_scatter (df : list Derived) (x y color chart_title : string)
| plotly_box (df : list Derived) (x y chart_title : string).

(** How a run of the script ends: it reaches its last line, [st.stop()] ends
    it, or an exception leaves it. *)
Inductive outcome (A : Type) : Type :=
| Done (a : A)
| Stopped
| Raised (exn : string).

Arguments Done {A} a.
Arguments Stopped {A}.
Arguments Raised {A} exn.

(** A piece of the script: it adds to the page shown so far and ends in an
    [outcome]. *)
Definition Script (A : Type) : Type := list event -> outcome A * list event.

Definition ret {A} (a : A) : Script A := fun page => (Done a, page).

Definition bind {A B} (m : Script A) (k : A -> Script B) : Script B :=
  fun page =>
    match m page with
    | (Done a, page') => k a page'
    | (Stopped, page') => (Stopped, page')
    | (Raised exn, page') => (Raised exn, page')
    end.

Definition show (e : event) : Script unit := fun page => (Done tt, page ++ [e]).

Definition st_stop {A} : Script A := fun page => (Stopped, page).

(** An exception that nothing catches: the run ends, and the exception is
    the last thing on the page. *)
Definition raise {A} (exn : string) : Script A :=
  fun page => (Raised exn, page ++ [exception exn]).

Notation "x <- m ;; k" := (bind m (fun x => k))
  (at level 61, m at next level, right associativity).
Notation "m ;; k" := (bind m (fun _ => k))
  (at level 61, right associativity).

Fixpoint for_each {A} (xs : list A) (body : A -> Script unit) : Script unit :=
  match xs with
  | [] => ret tt
  | x :: rest => body x ;; for_each rest body
  end.

(** [str(v)] for an entry of the column mapping. *)
Definition str_option (v : option string) : string :=
  match v with
  | Some s => s
  | None => "None"
  end.

(** [show_bar] (lines 130-135). *)
Definition show_bar (df : list (string * float)) (x y chart_title : string)
  : Script unit :=
  match df with
  | [] => show (info ("No data available for " ++ chart_title ++ ".")%string)
  | _ => show (plotly_bar df x y chart_title)
  end.

(** [show_scatter] (lines 137-142). *)
Definition show_scatter (df : list Derived) (x y color chart_title : string)
  : Script unit :=
  match df with
  | [] => show (info ("No data for " ++ chart_title ++ ".")%string)
  | _ => show (plotly_scatter df x y color chart_title)
  end.

(** ** The script *)

Definition DATA_PATH : string := "Copy of Last mile Delivery Data.csv".

Section Pipeline.

(** [pd.to_numeric(..., errors="coerce")] on one text: its number, or NaN when
    it is not a number. *)
Variable to_numeric : string -> float.

(** The selection the user holds in the multiselect of a given label and
    option list. *)
Variable multiselect : string -> list string -> list string.

Definition to_numeric_cell (c : cell) : float :=
  match c with
  | Some s => to_numeric s
  | None => None
  end.

(** The place of the first column labelled [src]. *)
Fixpoint position (src : string) (cols : list string) : option nat :=
  match cols with
  | [] => None
  | c :: rest =>
      if String.eqb c src then Some O else option_map S (position src rest)
  end.

Definition occurrences (src : string) (cols : list string) : nat :=
  List.length (filter (String.eqb src) cols).

(** One cell of [work[key]] before the numeric conversion (lines 69-74): the
    cell of the source column, or NaN when the mapping holds nothing true. *)
Definition source_cell (cols : list string) (col_map : list (string * option string))
  (key : string) (record : list cell) : cell :=
  match lookup key col_map with
  | Some src =>
      if Text.nonempty src then
        match position src cols with
        | Some i => nth i record None
        | None => None
        end
      else None
  | None => None
  end.

(** One record of [work] after lines 69-78. *)
Definition standardize_row (cols : list string)
  (col_map : list (string * option string)) (i : nat) (record : list cell) : Row :=
  let get := fun key => source_cell cols col_map key record in
  {| index := i;
     delivery_time := to_numeric_cell (get "delivery_time");
     weather := get "weather";
     traffic := get "traffic";
     vehicle := get "vehicle";
     agent_age := to_numeric_cell (get "agent_age");
     agent_rating := to_numeric_cell (get "agent_rating");
     area := get "area";
     category := get "category" |}.

Definition standardize_rows (df : DataFrame)
  (col_map : list (string * option string)) : list Row :=
  map (fun ir => standardize_row (columns df) col_map (fst ir) (snd ir))
      (combine (seq 0 (List.length (data df))) (data df)).

(** A mapping entry that [work[key] = df[src]] (line 72) cannot take: when two
    columns carry the label [src], [df[src]] is a frame of both and pandas
    refuses the assignment. *)
Definition clashes (cols : list string) (src : option string) : bool :=
  match src with
  | Some s => Text.nonempty s && (1 <? occurrences s cols)%nat
  | None => false
  end.

Definition assign_column (df : DataFrame) (kv : string * option string)
  : Script unit :=
  if clashes (columns df) (snd kv)
  then raise ("ValueError: Cannot set a DataFrame with multiple columns to the single column "
              ++ fst kv)%string
  else ret tt.

(** Lines 68-78: the eight canonical columns, the three numeric ones
    converted. *)
Definition standardize (df : DataFrame) (col_map : list (string * option string))
  : Script (list Row) :=
  for_each col_map (assign_column df) ;;
  ret (standardize_rows df col_map).

(** [work.dropna(subset=["delivery_time"])] (line 82). *)
Definition notna (x : float) : bool :=
  match x with
  | Some _ => true
  | None => false
  end.

Definition dropna (work : list Row) : list Row :=
  filter (fun r => notna (delivery_time r)) work.

(** [make_filter] (lines 98-103). *)
Definition make_filter (work : list Derived) (col : string) (field : Row -> cell)
  : Script (list string) :=
  let vals := filter_values (map (fun r => field (base r)) work) in
  match vals with
  | [] => ret []
  | _ =>
      show (sidebar_multiselect (Text.capitalize col) vals vals) ;;
      ret (multiselect (Text.capitalize col) vals)
  end.

(** Lines 105-109. *)
Definition make_filters (work : list Derived) : Script Selections :=
  weather_sel <- make_filter work "weather" weather ;;
  traffic_sel <- make_filter work "traffic" traffic ;;
  vehicle_sel <- make_filter work "vehicle" vehicle ;;
  area_sel <- make_filter work "area" area ;;
  category_sel <- make_filter work "category" category ;;
  ret (mkSelections weather_sel traffic_sel vehicle_sel area_sel category_sel).

(** Lines 16-23: without the file the run ends on a message; a file without
    a header line is one [pd.read_csv] cannot read, and its exception ends
    the run; any other file is read as a table. *)
Definition load (file : option DataFrame) : Script DataFrame :=
  match file with
  | None =>
      show (error "❌ Dataset not found. Please upload 'Copy of Last mile Delivery Data.csv' to the project folder.") ;;
      st_stop
  | Some df_raw =>
      match columns df_raw with
      | [] => raise "EmptyDataError: No columns to parse from file"
      | _ => ret df_raw
      end
  end.

(** Lines 58-65: the mapping is shown, then a run without a delivery time
    column ends. *)
Definition resolve_columns (df : DataFrame) : Script (list (string * option string)) :=
  let col_map := find_col variants (columns df) in
  show (sidebar_header "🧩 Column Mapping") ;;
  for_each col_map
    (fun kv => show (sidebar_write ("• " ++ fst kv ++ " → " ++ str_option (snd kv))%string)) ;;
  (if truthy (lookup "delivery_time" col_map) then ret tt
   else show (error "Could not find 'Delivery_Time' column. Please check your CSV header.") ;;
        st_stop) ;;
  ret col_map.

(** Lines 119-174: the figures and the charts of the filtered view. *)
Definition present (work view : list Derived) : Script unit :=
  show (write ("Filtered records: " ++ str_nat (List.length view) ++ " / "
               ++ str_nat (List.length work))%string) ;;
  show (metric "Avg Delivery Time (min)" (fst (fst (metrics view)))) ;;
  show (metric "Avg Agent Rating" (snd (fst (metrics view)))) ;;
  show (metric "Late Deliveries (%)" (snd (metrics view))) ;;
  show (markdown "---") ;;
  show (subheader "🌦️ Average Delivery Time by Weather") ;;
  show_bar (groupby_mean weather view) "weather" "delivery_time" "Avg Delivery Time by Weather" ;;
  show (subheader "🚦 Average Delivery Time by Traffic") ;;
  show_bar (groupby_mean traffic view) "traffic" "delivery_time" "Avg Delivery Time by Traffic" ;;
  show (subheader "🚗 Vehicle Performance") ;;
  show_bar (groupby_mean vehicle view) "vehicle" "delivery_time" "Avg Delivery Time by Vehicle" ;;
  show (subheader "👤 Agent Performance – Rating vs Delivery Time") ;;
  show_scatter view "agent_rating" "delivery_time" "age_group" "Agent Rating vs Delivery Time" ;;
  show (subheader "📍 Area-Wise Average Delivery Time") ;;
  show_bar (groupby_mean area view) "area" "delivery_time" "Avg Delivery Time by Area" ;;
  show (subheader "📦 Category Distribution – Delivery Time") ;;
  (match view with
   | [] => show (info "No data for selected filters.")
   | _ => show (plotly_box view "category" "delivery_time" "Delivery Time Distribution by Category")
   end) ;;
  show (markdown "---") ;;
  show (caption "💡 Tip: Use the sidebar filters to explore how traffic, weather, or vehicle type affect delivery time.") ;;
  show (caption "Developed by Abhinav Chanakya | IBCP AI CRS FA2 | © 2025").

(** Lines 80-174: what the script does with the table [work] of line 78. *)
Definition after_standardize (work : list Row) : Script unit :=
  let rows_before := List.length work in
  let work := dropna work in
  let rows_after := List.length work in
  show (sidebar_markdown "### 📊 Data Summary") ;;
  show (sidebar_write ("Rows before cleaning: " ++ str_nat rows_before)%string) ;;
  show (sidebar_write ("Rows after cleaning: " ++ str_nat rows_after)%string) ;;
  show (sidebar_dataframe (firstn 5 work)) ;;
  let work := feature_engineering work in
  show (sidebar_header "🔍 Filters") ;;
  sel <- make_filters work ;;
  present work (filtered sel work).

(** The whole script, top to bottom.  [st.set_page_config] (line 12) names
    the browser tab and puts nothing on the page. *)
Definition app (file : option DataFrame) : Script unit :=
  show (title "🚚 Last-Mile Delivery Analytics Dashboard") ;;
  show (caption "IBCP – AI Career-Related Study | FA2 Project by Abhinav Chanakya") ;;
  df_raw <- load file ;;
  let df := basic_cleaning df_raw in
  col_map <- resolve_columns df ;;
  work <- standardize df col_map ;;
  after_standardize work.

(** A run starts on an empty page. *)
Definition run (file : option DataFrame) : outcome unit * list event :=
  app file [].

(** The cleaned table of a run that gets as far as line 83. *)
Definition cleaned (df_raw : DataFrame) : list Row :=
  let df := basic_cleaning df_raw in
  dropna (standardize_rows df (find_col variants (columns df))).

End Pipeline.

(** ** Column resolution, as a relation

    What "the first header matched, the spelling list going first" means,
    without the loops: a spelling [o] of the list has a matching header, no
    earlier spelling has one, and [c] is the first header matching [o]. *)

Definition no_match (o : string) (df_cols : list string) : Prop :=
  forall h, In h df_cols -> same_name h o = false.

Definition first_match (o : string) (df_cols : list string) (c : string) : Prop :=
  exists before after,
    df_cols = before ++ c :: after
    /\ same_name c o = true
    /\ no_match o before.

Definition resolves (options df_cols : list string) (c : string) : Prop :=
  exists earlier o later,
    options = earlier ++ o :: later
    /\ (forall o', In o' earlier -> no_match o' df_cols)
    /\ first_match o df_cols c.

(** Two header rows that agree up to case and outer whitespace. *)
Definition same_headers (hs1 hs2 : list string) : Prop :=
  Forall2 (fun a b => Text.strip (Text.lower a) = Text.strip (Text.lower b)) hs1 hs2.

(** The column a header row gives to a field, as a place in the row. *)
Definition backed_at (hs : list string) (found : option string) (place : option nat)
  : Prop :=
  match found, place with
  | Some c, Some i => nth_error hs i = Some c
  | None, None => True
  | _, _ => False
  end.

(** The same relations for [find_col_by lower strip]. *)
Section RelationsBy.

Variables lower strip : string -> string.

Definition no_match_by (o : string) (df_cols : list string) : Prop :=
  forall h, In h df_cols -> same_name_by lower strip h o = false.

Definition first_match_by (o : string) (df_cols : list string) (c : string) : Prop :=
  exists before after,
    df_cols = before ++ c :: after
    /\ same_name_by lower strip c o = true
    /\ no_match_by o before.

Definition resolves_by (options df_cols : list string) (c : string) : Prop :=
  exists earlier o later,
    options = earlier ++ o :: later
    /\ (forall o', In o' earlier -> no_match_by o' df_cols)
    /\ first_match_by o df_cols c.

Definition same_headers_by (hs1 hs2 : list string) : Prop :=
  Forall2 (fun a b => strip (lower a) = strip (lower b)) hs1 hs2.

End RelationsBy.

(** Text of the ASCII range: every character below 128. *)
Fixpoint ascii_text (s : string) : bool :=
  match s with
  | EmptyString => true
  | String c rest => (nat_of_ascii c <? 128)%nat && ascii_text rest
  end.

(** A header in capitals, and a header between two spaces. *)
Definition upper (s : string) : string := Text.map_chars Text.upper_char s.

Definition padded (s : string) : string := (" " ++ s ++ " ")%string.

(** ** Filter selections, as sets *)

(** A cell is a member of a selection when it holds one of its values. *)
Definition member (v : cell) (sel : list string) : Prop :=
  exists s, v = Some s /\ In s sel.

(** The selections of a user who touches nothing: every option of every
    filter. *)
Definition default_selections (work : list Derived) : Selections :=
  {| weather_sel := filter_values (map (fun r => weather (base r)) work);
     traffic_sel := filter_values (map (fun r => traffic (base r)) work);
     vehicle_sel := filter_values (map (fun r => vehicle (base r)) work);
     area_sel := filter_values (map (fun r => area (base r)) work);
     category_sel := filter_values (map (fun r => category (base r)) work) |}.

(** ** Pages *)

(** A piece of script that reaches its end, whatever is on the page. *)
Definition completes {A} (m : Script A) : Prop :=
  forall page, exists a more, m page = (Done a, page ++ more).

(** A piece of script that reaches its end with [e] as the last thing shown. *)
Definition ends_with {A} (e : event) (m : Script A) : Prop :=
  forall page, exists a earlier, m page = (Done a, earlier ++ [e]).

(** What every run shows first (lines 13-14). *)
Definition page_head : list event :=
  [ title "🚚 Last-Mile Delivery Analytics Dashboard";
    caption "IBCP – AI Career-Related Study | FA2 Project by Abhinav Chanakya" ].

(** The two messages that come with [st.stop()] (lines 20 and 64). *)
Definition dataset_not_found : event :=
  error "❌ Dataset not found. Please upload 'Copy of Last mile Delivery Data.csv' to the project folder.".

Definition no_delivery_time : event :=
  error "Could not find 'Delivery_Time' column. Please check your CSV header.".

(** The last thing the script shows (line 174). *)
Definition final_caption : event :=
  caption "Developed by Abhinav Chanakya | IBCP AI CRS FA2 | © 2025".

(** The line of the sidebar for one entry of the column mapping. *)
Definition mapping_line (kv : string * option string) : event :=
  sidebar_write ("• " ++ fst kv ++ " → " ++ str_option (snd kv))%string.

(** ** Inputs for the examples *)

Definition digit_value (c : ascii) : option Z :=
  let n := nat_of_ascii c in
  if (48 <=? n)%nat && (n <=? 57)%nat then Some (Z.of_nat (n - 48)) else None.

Fixpoint read_digits (s : string) (acc : Z) : option Z :=
  match s with
  | EmptyString => Some acc
  | String c s' =>
      match digit_value c with
      | Some d => read_digits s' (10 * acc + d)%Z
      | None => None
      end
  end.

(** A numeric reader for the examples: a text of decimal digits is its
    number, any other text is NaN. *)
Definition digits_to_numeric (s : string) : float :=
  match s with
  | EmptyString => None
  | _ => option_map inject_Z (read_digits s 0)
  end.

(** Two users: one leaves every filter at its default, one clears them. *)
Definition select_all (label : string) (options : list string) : list string :=
  options.

Definition select_none (label : string) (options : list string) : list string :=
  [].

(** A file of four deliveries, the third without a readable time. *)
Definition sample_file : DataFrame :=
  {| columns := ["Order"; " Weather "; "Traffic"; "Vehicle"; "Time Taken";
                 "Age"; "Rating"; "Area"; "Category"];
     data :=
       [ [Some "1"; Some "Sunny"; Some "Low";  Some "Bike"; Some "10";
          Some "24"; Some "4"; Some "Urban"; Some "Food"];
         [Some "2"; Some "Rainy"; Some "High"; Some "Van";  Some "20";
          Some "25"; Some "5"; Some "Urban"; Some "Toys"];
         [Some "3"; Some "Sunny"; Some "High"; Some "Bike"; Some "soon";
          Some "41"; Some "3"; Some "Rural"; Some "Food"];
         [Some "4"; Some "Sunny"; None;        Some "Van";  Some "1000";
          Some "150"; None;     Some "Rural"; Some "Food"] ] |}.

(** Its cleaned table with the derived fields, and three of the records. *)
Definition sample_work : list Derived :=
  feature_engineering (cleaned digits_to_numeric sample_file).

Definition sample_record_young : Derived :=
  {| base := {| index := 0; delivery_time := Some 10%Q;
                weather := Some "Sunny"; traffic := Some "Low";
                vehicle := Some "Bike"; agent_age := Some 24%Q;
                agent_rating := Some 4%Q; area := Some "Urban";
                category := Some "Food" |};
     late := 0;
     age_group := Some "<25" |}.

Definition sample_record_middle : Derived :=
  {| base := {| index := 1; delivery_time := Some 20%Q;
                weather := Some "Rainy"; traffic := Some "High";
                vehicle := Some "Van"; agent_age := Some 25%Q;
                agent_rating := Some 5%Q; area := Some "Urban";
                category := Some "Toys" |};
     late := 0;
     age_group := Some "25–40" |}.

Definition sample_record_late : Derived :=
  {| base := {| index := 3; delivery_time := Some 1000%Q;
                weather := Some "Sunny"; traffic := None;
                vehicle := Some "Van"; agent_age := Some 150%Q;
                agent_rating := None; area := Some "Rural";
                category := Some "Food" |};
     late := 1;
     age_group := None |}.

(** Two selections over that table: sunny weather only, and no vehicle. *)
Definition sample_sel_sunny : Selections :=
  {| weather_sel := ["Sunny"];
     traffic_sel := ["High"; "Low"];
     vehicle_sel := ["Bike"; "Van"];
     area_sel := ["Rural"; "Urban"];
     category_sel := ["Food"; "Toys"] |}.

Definition sample_sel_no_vehicle : Selections :=
  {| weather_sel := ["Rainy"; "Sunny"];
     traffic_sel := ["High"; "Low"];
     vehicle_sel := [];
     area_sel := ["Rural"; "Urban"];
     category_sel := ["Food"; "Toys"] |}.

(** The same file without its time column. *)
Definition sample_file_no_time : DataFrame :=
  {| columns := ["Order"; "Weather"];
     data := [ [Some "1"; Some "Sunny"] ] |}.

(** A file with two columns that the header clean-up gives one label. *)
Definition sample_file_twice : DataFrame :=
  {| columns := ["Time Taken"; "Time Taken "];
     data := [ [Some "10"; Some "12"] ] |}.

(** A file of one delivery. *)
Definition sample_file_one : DataFrame :=
  {| columns := ["Delivery_Time"; "Weather"];
     data := [ [Some "30"; Some "Sunny"] ] |}.

(** A user who keeps only the sunny deliveries and leaves the other filters
    at their defaults. *)
Definition select_sunny (label : string) (options : list string) : list string :=
  if String.eqb label "Weather" then ["Sunny"] else options.

(** A table of ten deliveries of which the last two took long: the times
    0 (eight times), 10 and 11. *)
Definition timed_row (i : nat) (x : Q) : Row :=
  {| index := i; delivery_time := Some x;
     weather := None; traffic := None; vehicle := None;
     agent_age := None; agent_rating := None; area := None; category := None |}.

Definition sample_rows_two_late : list Row :=
  map (fun ix => timed_row (fst ix) (snd ix))
      (combine (seq 0 10) [0; 0; 0; 0; 0; 0; 0; 0; 10; 11]%Q).

(** The two slow deliveries of that table, as the feature step leaves
    them. *)
Definition sample_record_slow : Derived :=
  {| base := timed_row 8 10; late := 1; age_group := None |}.

Definition sample_record_slower : Derived :=
  {| base := timed_row 9 11; late := 1; age_group := None |}.

(** A table as line 78 leaves it, of three deliveries, the second without a
    readable time. *)
Definition sample_rows : list Row :=
  [ {| index := 0; delivery_time := Some 12%Q;
       weather := Some "Sunny"; traffic := Some "Low"; vehicle := Some "Bike";
       agent_age := Some 30%Q; agent_rating := Some 5%Q;
       area := Some "Urban"; category := Some "Food" |};
    {| index := 1; delivery_time := None;
       weather := Some "Rainy"; traffic := Some "High"; vehicle := Some "Van";
       agent_age := Some 41%Q; agent_rating := None;
       area := Some "Rural"; category := Some "Toys" |};
    {| index := 2; delivery_time := Some 18%Q;
       weather := Some "Rainy"; traffic := None; vehicle := Some "Van";
       agent_age := None; agent_rating := Some 4%Q;
       area := Some "Rural"; category := Some "Food" |} ].

(** Float columns for the examples: the times of the specification's
    example; three times that tell the two deviations apart; ten times, for
    the unrolled summation; three times above 2^53, where the rounding
    decides. *)
Definition times_example : list PrimFloat.float :=
  map Float64.of_Z [10; 20; 30; 1000]%Z.




(** ** More predicates on tables, selections and pages *)

(** The three texts that line 31 takes for a missing value. *)
Definition missing_texts : list string := [EmptyString; "nan"; "None"].

(** Every spelling of [variants] with its field, normalised as line 51
    normalises it. *)
Definition normalised_spellings : list (string * string) :=
  flat_map (fun kv => map (fun o => (fst kv, Text.strip (Text.lower o))) (snd kv))
           variants.

(** No normalised spelling belongs to two fields. *)
Definition spellings_apart (table : list (string * string)) : bool :=
  forallb (fun p =>
             forallb (fun q => implb (String.eqb (snd p) (snd q))
                                     (String.eqb (fst p) (fst q)))
                     table)
          table.

(** The five categorical fields, each under the name the script uses for
    it. *)
Definition categorical : list (string * (Row -> cell)) :=
  [ ("weather", weather); ("traffic", traffic); ("vehicle", vehicle);
    ("area", area); ("category", category) ].

(** A list of texts in ascending order, as [sorted] of Python leaves it. *)
Definition ascending (l : list string) : Prop :=
  Sorted (fun a b => String.leb a b = true) l.

(** Selections that hold, field by field, no more than other selections. *)
Definition included (sel1 sel2 : Selections) : Prop :=
  incl (weather_sel sel1) (weather_sel sel2)
  /\ incl (traffic_sel sel1) (traffic_sel sel2)
  /\ incl (vehicle_sel sel1) (vehicle_sel sel2)
  /\ incl (area_sel sel1) (area_sel sel2)
  /\ incl (category_sel sel1) (category_sel sel2).

(** How many records of a view are late. *)
Definition late_count (view : list Derived) : nat :=
  List.length (filter (fun r => Z.eqb (late r) 1) view).

(** What [show_bar] and [show_scatter] put on the page, and what the last
    block of the script puts there for the box plot. *)
Definition bar_event (df : list (string * float)) (x y chart_title : string) : event :=
  match df with
  | [] => info ("No data available for " ++ chart_title ++ ".")%string
  | _ => plotly_bar df x y chart_title
  end.

Definition scatter_event (df : list Derived) (x y color chart_title : string) : event :=
  match df with
  | [] => info ("No data for " ++ chart_title ++ ".")%string
  | _ => plotly_scatter df x y color chart_title
  end.

Definition box_event (view : list Derived) : event :=
  match view with
  | [] => info "No data for selected filters."
  | _ => plotly_box view "category" "delivery_time" "Delivery Time Distribution by Category"
  end.

(** Everything lines 119-174 show for a view, in order. *)
Definition present_events (work view : list Derived) : list event :=
  [ write ("Filtered records: " ++ str_nat (List.length view) ++ " / "
           ++ str_nat (List.length work))%string;
    metric "Avg Delivery Time (min)" (fst (fst (metrics view)));
    metric "Avg Agent Rating" (snd (fst (metrics view)));
    metric "Late Deliveries (%)" (snd (metrics view));
    markdown "---";
    subheader "🌦️ Average Delivery Time by Weather";
    bar_event (groupby_mean weather view) "weather" "delivery_time" "Avg Delivery Time by Weather";
    subheader "🚦 Average Delivery Time by Traffic";
    bar_event (groupby_mean traffic view) "traffic" "delivery_time" "Avg Delivery Time by Traffic";
    subheader "🚗 Vehicle Performance";
    bar_event (groupby_mean vehicle view) "vehicle" "delivery_time" "Avg Delivery Time by Vehicle";
    subheader "👤 Agent Performance – Rating vs Delivery Time";
    scatter_event view "agent_rating" "delivery_time" "age_group" "Agent Rating vs Delivery Time";
    subheader "📍 Area-Wise Average Delivery Time";
    bar_event (groupby_mean area view) "area" "delivery_time" "Avg Delivery Time by Area";
    subheader "📦 Category Distribution – Delivery Time";
    box_event view;
    markdown "---";
    caption "💡 Tip: Use the sidebar filters to explore how traffic, weather, or vehicle type affect delivery time.";
    final_caption ].

Definition is_chart (e : event) : bool :=
  match e with
  | plotly_bar _ _ _ _ | plotly_scatter _ _ _ _ _ | plotly_box _ _ _ _ => true
  | _ => false
  end.

Definition is_notice (e : event) : bool :=
  match e with
  | info _ => true
  | _ => false
  end.

Definition is_widget (e : event) : bool :=
  match e with
  | sidebar_multiselect _ _ _ => true
  | _ => false
  end.

(** The data summary of the sidebar (lines 85-88) for a file of [n] records
    and its cleaned table. *)
Definition summary_events (n : nat) (work : list Row) : list event :=
  [ sidebar_markdown "### 📊 Data Summary";
    sidebar_write ("Rows before cleaning: " ++ str_nat n)%string;
    sidebar_write ("Rows after cleaning: " ++ str_nat (List.length work))%string;
    sidebar_dataframe (firstn 5 work) ].

(** The records a page draws one by one: the scatter plot and the box plot
    are drawn from the records of the view handed to them, with their
    derived fields. *)
Definition shown_records (page : list event) : list Derived :=
  flat_map (fun e =>
              match e with
              | plotly_scatter df _ _ _ _ => df
              | plotly_box df _ _ _ => df
              | _ => []
              end)
           page.

(** A mapping with the keys [find_col] gives it: the eight fields, each
    once, whatever header each has found. *)
Definition mapping_of_fields (col_map : list (string * option string)) : Prop :=
  map fst col_map = map fst variants.

(** * Properties *)

(** ** Text *)

Lemma lstrip_keeps (c : ascii) (s : string) :
  Text.is_space c = false -> Text.lstrip (String c s) = String c s.
Proof. intros H. simpl. now rewrite H. Qed.

Lemma rstrip_keeps (c : ascii) (s : string) :
  Text.is_space c = false -> Text.rstrip (String c s) = String c (Text.rstrip s).
Proof.
  intros H. simpl. destruct (Text.rstrip s); [now rewrite H | reflexivity].
Qed.

Lemma lstrip_head (s : string) :
  Text.lstrip s = EmptyString
  \/ exists c t, Text.lstrip s = String c t /\ Text.is_space c = false.
Proof.
  induction s as [|c s IH]; simpl; [now left|].
  destruct (Text.is_space c) eqn:E; [exact IH|].
  right. now exists c, s.
Qed.

Lemma rstrip_idempotent (s : string) : Text.rstrip (Text.rstrip s) = Text.rstrip s.
Proof.
  induction s as [|c s IH]; simpl; [reflexivity|].
  destruct (Text.rstrip s) as [|d r] eqn:E.
  - destruct (Text.is_space c) eqn:Ec; simpl; [reflexivity | now rewrite Ec].
  - remember (String d r) as rest. simpl. rewrite IH.
    subst rest. reflexivity.
Qed.

Lemma strip_idempotent (s : string) : Text.strip (Text.strip s) = Text.strip s.
Proof.
  unfold Text.strip.
  destruct (lstrip_head s) as [->|(c & t & -> & Hc)]; [reflexivity|].
  rewrite (rstrip_keeps c t Hc), (lstrip_keeps c _ Hc).
  rewrite <- (rstrip_keeps c t Hc). apply rstrip_idempotent.
Qed.

Lemma lower_char_space (c : ascii) :
  Text.is_space (Text.lower_char c) = Text.is_space c.
Proof.
  destruct c as [[] [] [] [] [] [] [] []]; reflexivity.
Qed.

Lemma lower_lstrip (s : string) : Text.lstrip (Text.lower s) = Text.lower (Text.lstrip s).
Proof.
  induction s as [|c s IH]; simpl; [reflexivity|].
  rewrite lower_char_space. destruct (Text.is_space c); [exact IH | reflexivity].
Qed.

Lemma lower_rstrip (s : string) : Text.rstrip (Text.lower s) = Text.lower (Text.rstrip s).
Proof.
  induction s as [|c s IH]; simpl; [reflexivity|].
  fold (Text.lower s). rewrite IH, lower_char_space.
  destruct (Text.rstrip s); simpl; [destruct (Text.is_space c)|]; reflexivity.
Qed.

(** Lowercasing and trimming can be done in either order. *)
Lemma lower_strip (s : string) : Text.strip (Text.lower s) = Text.lower (Text.strip s).
Proof. unfold Text.strip. now rewrite lower_lstrip, lower_rstrip. Qed.

(** Lowercasing and capitals stay within ASCII, and capitals are undone by
    lowercasing. *)
Lemma lower_char_ascii (c : ascii) :
  (nat_of_ascii (Text.lower_char c) <? 128)%nat = (nat_of_ascii c <? 128)%nat.
Proof.
  destruct c as [[] [] [] [] [] [] [] []]; reflexivity.
Qed.

Lemma upper_char_ascii (c : ascii) :
  (nat_of_ascii (Text.upper_char c) <? 128)%nat = (nat_of_ascii c <? 128)%nat.
Proof.
  destruct c as [[] [] [] [] [] [] [] []]; reflexivity.
Qed.

Lemma lower_upper_char (c : ascii) :
  Text.lower_char (Text.upper_char c) = Text.lower_char c.
Proof.
  destruct c as [[] [] [] [] [] [] [] []]; reflexivity.
Qed.

Lemma ascii_text_lower (s : string) : ascii_text (Text.lower s) = ascii_text s.
Proof.
  unfold Text.lower.
  induction s as [|c s IH]; cbn [Text.map_chars ascii_text]; [reflexivity|].
  now rewrite lower_char_ascii, IH.
Qed.

Lemma ascii_text_upper (s : string) : ascii_text (upper s) = ascii_text s.
Proof.
  unfold upper.
  induction s as [|c s IH]; cbn [Text.map_chars ascii_text]; [reflexivity|].
  now rewrite upper_char_ascii, IH.
Qed.

Lemma lower_upper (s : string) : Text.lower (upper s) = Text.lower s.
Proof.
  unfold upper, Text.lower.
  induction s as [|c s IH]; cbn [Text.map_chars]; [reflexivity|].
  now rewrite lower_upper_char, IH.
Qed.

Lemma lower_app (a b : string) :
  Text.lower (a ++ b) = (Text.lower a ++ Text.lower b)%string.
Proof.
  unfold Text.lower.
  induction a as [|c a IH]; cbn [Text.map_chars String.append]; [reflexivity|].
  now rewrite IH.
Qed.

Lemma ascii_text_app (a b : string) :
  ascii_text (a ++ b) = ascii_text a && ascii_text b.
Proof.
  induction a as [|c a IH]; cbn [ascii_text String.append]; [reflexivity|].
  now rewrite IH, andb_assoc.
Qed.

Lemma rstrip_app_space (s : string) :
  Text.rstrip (s ++ " ") = Text.rstrip s.
Proof.
  induction s as [|c s IH]; simpl; [reflexivity|]. now rewrite IH.
Qed.

(** A space before and a space after a text are trimmed away. *)
Lemma strip_padded (s : string) : Text.strip (padded s) = Text.strip s.
Proof.
  unfold Text.strip, padded.
  change (Text.lstrip (" " ++ s ++ " ")) with (Text.lstrip (s ++ " ")).
  induction s as [|c s IH]; [reflexivity|].
  change (Text.lstrip (String c s ++ " "))
    with (if Text.is_space c then Text.lstrip (s ++ " ") else String c (s ++ " ")).
  change (Text.lstrip (String c s))
    with (if Text.is_space c then Text.lstrip s else String c s).
  destruct (Text.is_space c); [exact IH|].
  apply (rstrip_app_space (String c s)).
Qed.

(** ** Column resolution *)

Lemma nonempty_iff (s : string) : Text.nonempty s = true <-> s <> EmptyString.
Proof.
  destruct s; simpl; split; intros H; congruence.
Qed.

(** *** The two loops, for any [str.lower] and [str.strip] *)

Section ResolutionBy.

Variables lower strip : string -> string.

Lemma scan_cols_by_none (o : string) (df_cols : list string) :
  scan_cols_by lower strip o df_cols None = None
  <-> no_match_by lower strip o df_cols.
Proof.
  unfold no_match_by. induction df_cols as [|c cs IH]; simpl.
  - split; [intros _ h []| reflexivity].
  - destruct (same_name_by lower strip c o) eqn:E.
    + split; [discriminate|]. intros H. specialize (H c (or_introl eq_refl)). congruence.
    + rewrite IH. split.
      * intros H h [<-|Hin]; auto.
      * intros H h Hin. apply H. now right.
Qed.

Lemma scan_cols_by_some (o : string) (df_cols : list string) (c : string) :
  scan_cols_by lower strip o df_cols None = Some c
  <-> first_match_by lower strip o df_cols c.
Proof.
  unfold first_match_by, no_match_by. revert c.
  induction df_cols as [|h hs IH]; intros c; simpl.
  - split; [discriminate|]. intros (before & after & H & _). now destruct before.
  - destruct (same_name_by lower strip h o) eqn:E.
    + split.
      * intros [= <-]. exists [], hs. repeat split; auto. intros ? [].
      * intros (before & after & Hsplit & Hc & Hbefore).
        destruct before as [|b before]; simpl in Hsplit.
        -- now injection Hsplit as -> _.
        -- injection Hsplit as Hb _. subst b.
           specialize (Hbefore h (or_introl eq_refl)). congruence.
    + rewrite IH. split.
      * intros (before & after & -> & Hc & Hbefore).
        exists (h :: before), after. repeat split; auto.
        intros x [<-|Hin]; auto.
      * intros (before & after & Hsplit & Hc & Hbefore).
        destruct before as [|b before]; simpl in Hsplit.
        -- injection Hsplit as Hb _. subst h. congruence.
        -- injection Hsplit as Hb Hhs. subst b hs.
           exists before, after. repeat split; auto.
           intros x Hin. apply Hbefore. now right.
Qed.

Lemma first_match_by_not_no_match (o : string) (df_cols : list string) (c : string) :
  first_match_by lower strip o df_cols c -> no_match_by lower strip o df_cols -> False.
Proof.
  intros (before & after & -> & Hc & _) Hno.
  rewrite (Hno c) in Hc; [discriminate|].
  apply in_or_app. right. now left.
Qed.

(** Headers that agree after lowercasing and trimming pass or fail the test
    of line 51 together. *)
Lemma same_name_by_normalised (a b o : string) :
  strip (lower a) = strip (lower b) ->
  same_name_by lower strip a o = same_name_by lower strip b o.
Proof. unfold same_name_by. now intros ->. Qed.

Lemma scan_cols_by_lockstep (o : string) (hs1 hs2 : list string) :
  same_headers_by lower strip hs1 hs2 ->
  exists place,
    backed_at hs1 (scan_cols_by lower strip o hs1 None) place
    /\ backed_at hs2 (scan_cols_by lower strip o hs2 None) place.
Proof.
  induction 1 as [|a b l1 l2 Hab _ IH]; simpl.
  - now exists None.
  - rewrite (same_name_by_normalised a b o Hab).
    destruct (same_name_by lower strip b o).
    + now exists (Some O).
    + destruct IH as (place & H1 & H2).
      exists (option_map S place).
      destruct place as [i|]; simpl;
        destruct (scan_cols_by lower strip o l1 None),
                 (scan_cols_by lower strip o l2 None); simpl in *; auto.
Qed.

Lemma find_col_by_keys (table : list (string * list string)) (df_cols : list string) :
  map fst (find_col_by lower strip table df_cols) = map fst table.
Proof.
  unfold find_col_by. rewrite map_map. reflexivity.
Qed.

Lemma lookup_find_col_by (key : string) (options : list string)
  (table : list (string * list string)) (df_cols : list string) :
  NoDup (map fst table) -> In (key, options) table ->
  lookup key (find_col_by lower strip table df_cols)
  = scan_options_by lower strip options df_cols None.
Proof.
  induction table as [|[k v] rest IH]; intros Hnd Hin; [destruct Hin|].
  simpl in *. inversion Hnd as [|? ? Hnotin Hnd']; subst.
  destruct (String.eqb k key) eqn:E.
  - apply String.eqb_eq in E. subst k.
    destruct Hin as [[= ->]|Hin]; [reflexivity|].
    exfalso. apply Hnotin. apply in_map_iff. now exists (key, options).
  - apply String.eqb_neq in E.
    destruct Hin as [[= -> ->]|Hin]; [congruence|]. now apply IH.
Qed.

(** The empty text stays empty under [lower] and [strip]. *)
Hypothesis empty_stays : strip (lower EmptyString) = EmptyString.

(** A header equal, after normalisation, to a spelling that normalises to a
    non-empty text is itself non-empty. *)
Lemma same_name_by_nonempty (c o : string) :
  strip (lower o) <> EmptyString ->
  same_name_by lower strip c o = true -> Text.nonempty c = true.
Proof.
  intros Ho Hsame. apply nonempty_iff. intros ->.
  unfold same_name_by in Hsame. apply String.eqb_eq in Hsame.
  apply Ho. now rewrite <- Hsame.
Qed.

Variable df_cols : list string.

(** The loop over the spellings, for spellings that do not normalise to the
    empty text: it finds [c] exactly when [c] is the resolution. *)
Lemma scan_options_by_some (options : list string) (c : string) :
  (forall o, In o options -> strip (lower o) <> EmptyString) ->
  scan_options_by lower strip options df_cols None = Some c
  <-> resolves_by lower strip options df_cols c.
Proof.
  unfold resolves_by. induction options as [|o os IH]; intros Hne; simpl.
  - split; [discriminate|]. intros (earlier & ? & ? & H & _). now destruct earlier.
  - destruct (scan_cols_by lower strip o df_cols None) as [c0|] eqn:E.
    + assert (Hfm : first_match_by lower strip o df_cols c0)
        by now apply scan_cols_by_some.
      assert (Htrue : truthy (Some c0) = true).
      { destruct Hfm as (? & ? & _ & Hc & _). simpl.
        apply (same_name_by_nonempty c0 o); auto. apply Hne. now left. }
      rewrite Htrue. split.
      * intros [= <-]. exists [], o, os. repeat split; auto. intros ? [].
      * intros (earlier & o1 & later & Hsplit & Hearlier & Hc).
        destruct earlier as [|e earlier]; simpl in Hsplit.
        -- injection Hsplit as Ho _. subst o1.
           apply scan_cols_by_some in Hc. congruence.
        -- injection Hsplit as He _. subst e.
           exfalso. apply (first_match_by_not_no_match o df_cols c0 Hfm).
           apply Hearlier. now left.
    + simpl. rewrite IH by (intros; apply Hne; now right). split.
      * intros (earlier & o1 & later & -> & Hearlier & Hc).
        exists (o :: earlier), o1, later. repeat split; auto.
        intros o' [<-|Hin]; [now apply scan_cols_by_none | now apply Hearlier].
      * intros (earlier & o1 & later & Hsplit & Hearlier & Hc).
        destruct earlier as [|e earlier]; simpl in Hsplit.
        -- injection Hsplit as Ho _. subst o1.
           apply scan_cols_by_some in Hc. congruence.
        -- injection Hsplit as He Hos. subst e os.
           exists earlier, o1, later. repeat split; auto.
           intros o' Hin. apply Hearlier. now right.
Qed.

Lemma scan_options_by_none (options : list string) :
  (forall o, In o options -> strip (lower o) <> EmptyString) ->
  scan_options_by lower strip options df_cols None = None
  <-> (forall o, In o options -> no_match_by lower strip o df_cols).
Proof.
  induction options as [|o os IH]; intros Hne; simpl.
  - split; [intros _ ? []| reflexivity].
  - destruct (scan_cols_by lower strip o df_cols None) as [c0|] eqn:E.
    + assert (Hfm : first_match_by lower strip o df_cols c0)
        by now apply scan_cols_by_some.
      assert (Htrue : truthy (Some c0) = true).
      { destruct Hfm as (? & ? & _ & Hc & _). simpl.
        apply (same_name_by_nonempty c0 o); auto. apply Hne. now left. }
      rewrite Htrue. split; [discriminate|]. intros H. exfalso.
      apply (first_match_by_not_no_match o df_cols c0 Hfm). apply H. now left.
    + simpl. rewrite IH by (intros; apply Hne; now right). split.
      * intros H o' [<-|Hin]; [now apply scan_cols_by_none | now apply H].
      * intros H o' Hin. apply H. now right.
Qed.

Lemma scan_options_by_lockstep (options hs : list string) :
  (forall o, In o options -> strip (lower o) <> EmptyString) ->
  same_headers_by lower strip df_cols hs ->
  exists place,
    backed_at df_cols (scan_options_by lower strip options df_cols None) place
    /\ backed_at hs (scan_options_by lower strip options hs None) place.
Proof.
  intros Hne Hsame. induction options as [|o os IH]; simpl.
  - now exists None.
  - destruct (scan_cols_by_lockstep o df_cols hs Hsame) as (place & H1 & H2).
    assert (Ho : strip (lower o) <> EmptyString) by (apply Hne; now left).
    destruct (scan_cols_by lower strip o df_cols None) as [c1|] eqn:E1;
      destruct (scan_cols_by lower strip o hs None) as [c2|] eqn:E2;
      destruct place as [i|]; simpl in H1, H2; try contradiction.
    + apply scan_cols_by_some in E1, E2.
      destruct E1 as (? & ? & _ & Hc1 & _), E2 as (? & ? & _ & Hc2 & _).
      simpl. rewrite (same_name_by_nonempty c1 o Ho Hc1),
                     (same_name_by_nonempty c2 o Ho Hc2).
      now exists (Some i).
    + simpl. apply IH. intros; apply Hne; now right.
Qed.

End ResolutionBy.

(** *** The two loops on ASCII text *)

(** [find_col] is [find_col_by] with the ASCII [lower] and [strip]. *)
Lemma find_col_by_text (table : list (string * list string)) (df_cols : list string) :
  find_col_by Text.lower Text.strip table df_cols = find_col table df_cols.
Proof. reflexivity. Qed.

Section ScanOptions.

Variable df_cols : list string.

Lemma scan_options_some (options : list string) (c : string) :
  (forall o, In o options -> Text.strip (Text.lower o) <> EmptyString) ->
  scan_options options df_cols None = Some c <-> resolves options df_cols c.
Proof.
  exact (scan_options_by_some Text.lower Text.strip eq_refl df_cols options c).
Qed.

End ScanOptions.

Lemma lookup_find_col (key : string) (options : list string)
  (table : list (string * list string)) (df_cols : list string) :
  NoDup (map fst table) -> In (key, options) table ->
  lookup key (find_col table df_cols) = scan_options options df_cols None.
Proof. exact (lookup_find_col_by Text.lower Text.strip key options table df_cols). Qed.

Lemma variants_keys_nodup : NoDup (map fst variants).
Proof.
  repeat constructor; simpl; intuition discriminate.
Qed.

Lemma variants_spellings_nonempty (key : string) (options : list string) :
  In (key, options) variants ->
  forall o, In o options -> Text.strip (Text.lower o) <> EmptyString.
Proof.
  unfold variants. simpl.
  intros H o Ho.
  repeat (destruct H as [[= <- <-]|H];
          [simpl in Ho; repeat (destruct Ho as [<-|Ho]; [vm_compute; discriminate|]);
           destruct Ho|]).
  destruct H.
Qed.

Lemma variants_spellings_ascii (key : string) (options : list string) :
  In (key, options) variants -> forall o, In o options -> ascii_text o = true.
Proof.
  unfold variants. simpl.
  intros H o Ho.
  repeat (destruct H as [[= <- <-]|H];
          [simpl in Ho; repeat (destruct Ho as [<-|Ho]; [reflexivity|]);
           destruct Ho|]).
  destruct H.
Qed.

Lemma scan_options_lockstep (options hs1 hs2 : list string) :
  (forall o, In o options -> Text.strip (Text.lower o) <> EmptyString) ->
  same_headers hs1 hs2 ->
  exists place,
    backed_at hs1 (scan_options options hs1 None) place
    /\ backed_at hs2 (scan_options options hs2 None) place.
Proof.
  exact (scan_options_by_lockstep Text.lower Text.strip eq_refl hs1 options hs2).
Qed.

(** The mapping [find_col] builds has the eight fields, each once. *)
Lemma find_col_fields (df_cols : list string) :
  mapping_of_fields (find_col variants df_cols).
Proof. exact (find_col_by_keys Text.lower Text.strip variants df_cols). Qed.

(** *** Python's [lower] and [strip]

    All that is used of [str.lower] and [str.strip] is what they do to ASCII
    text. *)

Section PythonText.

Variables lower strip : string -> string.

Hypothesis lower_ascii : forall s, ascii_text s = true -> lower s = Text.lower s.
Hypothesis strip_ascii : forall s, ascii_text s = true -> strip s = Text.strip s.

Lemma normalise_ascii (s : string) :
  ascii_text s = true -> strip (lower s) = Text.strip (Text.lower s).
Proof.
  intros Hs. rewrite (lower_ascii s Hs). apply strip_ascii.
  now rewrite ascii_text_lower.
Qed.

Lemma empty_stays_empty : strip (lower EmptyString) = EmptyString.
Proof. now rewrite normalise_ascii. Qed.

Lemma same_name_by_ascii (c o : string) :
  ascii_text c = true -> ascii_text o = true ->
  same_name_by lower strip c o = same_name c o.
Proof.
  intros Hc Ho. unfold same_name_by, same_name.
  now rewrite (normalise_ascii c Hc), (normalise_ascii o Ho).
Qed.

Lemma scan_cols_by_ascii (o : string) (df_cols : list string) (found : option string) :
  ascii_text o = true -> forallb ascii_text df_cols = true ->
  scan_cols_by lower strip o df_cols found = scan_cols o df_cols found.
Proof.
  intros Ho. induction df_cols as [|c cs IH]; simpl; [reflexivity|].
  intros H. apply andb_true_iff in H. destruct H as [Hc Hcs].
  now rewrite (same_name_by_ascii c o Hc Ho), (IH Hcs).
Qed.

Lemma scan_options_by_ascii (options df_cols : list string) (found : option string) :
  forallb ascii_text options = true -> forallb ascii_text df_cols = true ->
  scan_options_by lower strip options df_cols found
  = scan_options options df_cols found.
Proof.
  intros Hos Hcs. revert found.
  induction options as [|o os IH]; intros found; simpl; [reflexivity|].
  simpl in Hos. apply andb_true_iff in Hos. destruct Hos as [Ho Hos].
  rewrite (scan_cols_by_ascii o df_cols found Ho Hcs).
  now rewrite (IH Hos).
Qed.

(** On ASCII headers [find_col_by lower strip] is [find_col]. *)
Lemma find_col_by_ascii (df_cols : list string) :
  forallb ascii_text df_cols = true ->
  find_col_by lower strip variants df_cols = find_col variants df_cols.
Proof.
  intros Hcs. unfold find_col_by, find_col. apply map_ext_in.
  intros [key options] Hin. simpl. f_equal.
  apply scan_options_by_ascii; [|exact Hcs].
  apply forallb_forall. intros o Ho.
  exact (variants_spellings_ascii key options Hin o Ho).
Qed.

Lemma spellings_nonempty_by (key : string) (options : list string) :
  In (key, options) variants ->
  forall o, In o options -> strip (lower o) <> EmptyString.
Proof.
  intros Hin o Ho.
  rewrite (normalise_ascii o (variants_spellings_ascii key options Hin o Ho)).
  exact (variants_spellings_nonempty key options Hin o Ho).
Qed.

(** Capitals and a space on either side do not matter to the test of line
    51. *)
Lemma same_name_by_upper (c o : string) :
  ascii_text c = true ->
  same_name_by lower strip (upper c) o = same_name_by lower strip c o.
Proof.
  intros Hc. apply same_name_by_normalised.
  rewrite (lower_ascii (upper c)) by now rewrite ascii_text_upper.
  now rewrite lower_upper, <- (lower_ascii c Hc).
Qed.

Lemma same_name_by_padded (c o : string) :
  ascii_text c = true ->
  same_name_by lower strip (padded c) o = same_name_by lower strip c o.
Proof.
  intros Hc. apply same_name_by_normalised.
  assert (Hp : ascii_text (padded c) = true).
  { unfold padded. rewrite !ascii_text_app, Hc. reflexivity. }
  rewrite (normalise_ascii (padded c) Hp), (normalise_ascii c Hc).
  unfold padded. rewrite !lower_app.
  exact (strip_padded (Text.lower c)).
Qed.

End PythonText.

(** C5.  For every header row, each of the eight canonical fields and any
    [str.lower] and [str.strip] that do to ASCII text what Python's do,
    [find_col] tests headers against spellings by equality after lowercasing
    and trimming; it returns the first header matching the first spelling
    that has a match at all (the spelling list goes before the header order)
    and nothing when no spelling matches.  The mapping has the eight fields,
    each once, so one header at most backs a field.  Header rows that agree
    after lowercasing and trimming give every field the column at the same
    place; capitals and a space on either side of an ASCII header do not
    matter to the test.  So [" Weather "], ["WEATHER"] and ["weather"] all
    back the weather field, and the header ["delivery TIME"] backs the
    delivery time although [" TIME taken "] stands before it, its spelling
    coming first in the list. *)
Theorem find_col_first_match
  (lower strip : string -> string)
  (df_cols : list string) (key : string) (options : list string) :
  (forall s, ascii_text s = true -> lower s = Text.lower s) ->
  (forall s, ascii_text s = true -> strip s = Text.strip s) ->
  In (key, options) variants ->
  let find := find_col_by lower strip variants in
  (forall c o, same_name_by lower strip c o = true
               <-> strip (lower c) = strip (lower o))
  /\ (forall c, lookup key (find df_cols) = Some c
                <-> resolves_by lower strip options df_cols c)
  /\ (lookup key (find df_cols) = None
      <-> forall o, In o options -> no_match_by lower strip o df_cols)
  /\ (map fst (find df_cols) = map fst variants
      /\ NoDup (map fst (find df_cols)))
  /\ (forall other, same_headers_by lower strip df_cols other ->
        exists place,
          backed_at df_cols (lookup key (find df_cols)) place
          /\ backed_at other (lookup key (find other)) place)
  /\ (forall c o, ascii_text c = true ->
        same_name_by lower strip (upper c) o = same_name_by lower strip c o
        /\ same_name_by lower strip (padded c) o = same_name_by lower strip c o)
  /\ (forallb ascii_text df_cols = true -> find df_cols = find_col variants df_cols)
  /\ (lookup "weather" (find [" Weather "]) = Some " Weather "
      /\ lookup "weather" (find ["weather"]) = Some "weather"
      /\ lookup "weather" (find ["WEATHER"]) = Some "WEATHER"
      /\ lookup "delivery_time" (find [" TIME taken "; "delivery TIME"])
         = Some "delivery TIME"
      /\ lookup "weather" (find ["Wetter"; "Time Taken"]) = None).
Proof.
  intros Hlower Hstrip Hin find.
  pose proof (spellings_nonempty_by lower strip Hlower Hstrip key options Hin) as Hne.
  pose proof (empty_stays_empty lower strip Hlower Hstrip) as Hempty.
  assert (Hl : forall hs,
             lookup key (find hs) = scan_options_by lower strip options hs None).
  { intros hs. apply lookup_find_col_by; auto using variants_keys_nodup. }
  split; [intros; unfold same_name_by; apply String.eqb_eq|].
  split; [intros c; rewrite Hl; now apply scan_options_by_some|].
  split; [rewrite Hl; now apply scan_options_by_none|].
  split; [split; [apply find_col_by_keys
                 | unfold find; rewrite find_col_by_keys; apply variants_keys_nodup]|].
  split; [intros other Hsame; rewrite !Hl; now apply scan_options_by_lockstep|].
  split; [intros c o Hc; split;
          [now apply same_name_by_upper | now apply same_name_by_padded]|].
  split; [now apply find_col_by_ascii|].
  unfold find.
  rewrite !(find_col_by_ascii lower strip Hlower Hstrip) by reflexivity.
  repeat split; reflexivity.
Qed.

Lemma find_col_first_match_witness :
  resolves_by Text.lower Text.strip
    ["Weather"; "weather"] ["Order"; " WEATHER "; "weather"] " WEATHER ".
Proof.
  apply (find_col_first_match Text.lower Text.strip
           ["Order"; " WEATHER "; "weather"] "weather" ["Weather"; "weather"]
           (fun s _ => eq_refl) (fun s _ => eq_refl)).
  - simpl. right. left. reflexivity.
  - reflexivity.
Defined.

(** ** Comparisons and statistics *)

Lemma Qlt_bool_iff (x y : Q) : Qlt_bool x y = true <-> (x < y)%Q.
Proof.
  unfold Qlt_bool. rewrite negb_true_iff. split.
  - intros H. apply Qnot_le_lt. intros Hle.
    apply Qle_bool_iff in Hle. congruence.
  - intros H. destruct (Qle_bool y x) eqn:E; [|reflexivity].
    apply Qle_bool_iff in E. exfalso. exact (Qlt_not_le _ _ H E).
Qed.

Lemma Qlt_bool_false_iff (x y : Q) : Qlt_bool x y = false <-> (y <= x)%Q.
Proof.
  unfold Qlt_bool. rewrite negb_false_iff. apply Qle_bool_iff.
Qed.

Lemma Qsum_nonneg (xs : list Q) :
  (forall x, In x xs -> (0 <= x)%Q) -> (0 <= Qsum xs)%Q.
Proof.
  induction xs as [|x rest IH]; simpl; intros H.
  - apply Qle_refl.
  - assert (0 <= x)%Q by (apply H; now left).
    assert (0 <= Qsum rest)%Q by (apply IH; intros; apply H; now right).
    lra.
Qed.

Lemma count_ge_2 (a b : Q) (rest : list Q) : (1 <= count (a :: b :: rest) - 1)%Q.
Proof.
  unfold count.
  assert (H : (inject_Z 2 <= inject_Z (Z.of_nat (List.length (a :: b :: rest))))%Q).
  { rewrite <- Zle_Qle. simpl List.length. lia. }
  change (inject_Z 2) with 2%Q in H. lra.
Qed.

Lemma squared_deviations_nonneg (avg : Q) (xs : list Q) :
  (1 <= count xs - 1)%Q ->
  (0 <= Qsum (map (fun x => (avg - x) * (avg - x)) xs) / (count xs - 1))%Q.
Proof.
  intros Hn.
  assert (Hsum : (0 <= Qsum (map (fun x => (avg - x) * (avg - x)) xs))%Q).
  { apply Qsum_nonneg. intros y Hy. apply in_map_iff in Hy.
    destruct Hy as (x & <- & _). generalize (avg - x)%Q. intros d. nra. }
  apply Qle_shift_div_l.
  - remember (count xs) as n. lra.
  - rewrite Qmult_0_l. exact Hsum.
Qed.

(** The variance is never negative, so its square root is the standard
    deviation. *)
Lemma var_nonneg (col : list float) (v : Q) : var col = Some v -> (0 <= v)%Q.
Proof.
  unfold var. destruct (dropna_floats col) as [|a [|b rest]]; try discriminate.
  intros [= <-].
  apply (squared_deviations_nonneg _ (a :: b :: rest)), count_ge_2.
Qed.

(** [exceeds] is the comparison with the mean plus the square root of the
    variance, over the reals. *)
Lemma exceeds_real (x m v : Q) :
  (0 <= v)%Q ->
  exceeds (Some x) (Some m) (Some v) = true
  <-> (Q2R m + sqrt (Q2R v) < Q2R x)%R.
Proof.
  intros Hv. simpl. rewrite andb_true_iff, !Qlt_bool_iff.
  assert (Hv' : (0 <= Q2R v)%R).
  { replace 0%R with (Q2R 0) by lra. now apply Qle_Rle. }
  split.
  - intros [Hm Hsq]. apply Qlt_Rlt in Hm, Hsq.
    rewrite Q2R_mult, Q2R_minus in Hsq.
    assert (Hd : (0 < Q2R x - Q2R m)%R) by lra.
    assert (Hlt : (sqrt (Q2R v) < Q2R x - Q2R m)%R).
    { rewrite <- (sqrt_square (Q2R x - Q2R m)) by lra.
      apply sqrt_lt_1; nra. }
    lra.
  - intros H. pose proof (sqrt_pos (Q2R v)) as Hs.
    pose proof (sqrt_sqrt (Q2R v) Hv') as Hss.
    split; apply Rlt_Qlt.
    + lra.
    + rewrite Q2R_mult, Q2R_minus. nra.
Qed.

(** ** The cleaner *)

Section Cleaner.

Variable to_numeric : string -> float.

Lemma standardize_rows_length (df : DataFrame)
  (col_map : list (string * option string)) :
  List.length (standardize_rows to_numeric df col_map) = List.length (data df).
Proof.
  unfold standardize_rows.
  rewrite length_map, length_combine, length_seq. apply Nat.min_id.
Qed.

Lemma basic_cleaning_length (df_raw : DataFrame) :
  List.length (data (basic_cleaning df_raw)) = List.length (data df_raw).
Proof. unfold basic_cleaning. simpl. apply length_map. Qed.

(** A converted cell that holds a number was read from a text. *)
Lemma to_numeric_cell_some (c : cell) (q : Q) :
  to_numeric_cell to_numeric c = Some q ->
  exists s, c = Some s /\ to_numeric s = Some q.
Proof.
  destruct c as [s|]; simpl; [|discriminate]. intros H. now exists s.
Qed.

(** C6.  For every input table, every record of the cleaned table holds a
    delivery time that is a number, the one the numeric reader gave for a
    text of the file, and the cleaner does not add rows: the count after the
    drop is at most the count before it, which is the count of the file. *)
Theorem dropna_keeps_timed_rows (df_raw : DataFrame) :
  let df := basic_cleaning df_raw in
  let before := standardize_rows to_numeric df (find_col variants (columns df)) in
  let after := dropna before in
  after = cleaned to_numeric df_raw
  /\ (forall r, In r after ->
        exists q s, delivery_time r = Some q /\ to_numeric s = Some q)
  /\ (List.length after <= List.length before)%nat
  /\ List.length before = List.length (data df_raw).
Proof.
  intros df before after. split; [reflexivity|]. split; [|split].
  - intros r Hr. apply filter_In in Hr. destruct Hr as [Hin Hnotna].
    destruct (delivery_time r) as [q|] eqn:E; [|discriminate].
    apply in_map_iff in Hin. destruct Hin as ([i record] & <- & _).
    simpl in E. apply to_numeric_cell_some in E.
    destruct E as (s & _ & Hs). now exists q, s.
  - apply filter_length_le.
  - unfold before. rewrite standardize_rows_length. apply basic_cleaning_length.
Qed.

(** The row labels of the cleaned table are distinct. *)
Lemma cleaned_index_nodup (df_raw : DataFrame) :
  NoDup (map index (cleaned to_numeric df_raw)).
Proof.
  unfold cleaned, dropna.
  set (df := basic_cleaning df_raw).
  set (col_map := find_col variants (columns df)).
  assert (H : forall (start : nat) (records : list (list cell)) (keep : Row -> bool),
             NoDup (map index
                      (filter keep
                         (map (fun ir => standardize_row to_numeric (columns df)
                                           col_map (fst ir) (snd ir))
                              (combine (seq start (List.length records)) records))))
             /\ forall i, In i (map index
                      (filter keep
                         (map (fun ir => standardize_row to_numeric (columns df)
                                           col_map (fst ir) (snd ir))
                              (combine (seq start (List.length records)) records))))
                          -> (start <= i)%nat).
  { intros start records keep. revert start.
    induction records as [|record rest IH]; intros start; simpl.
    - split; [constructor | intros ? []].
    - destruct (IH (S start)) as [Hnd Hge].
      destruct (keep _); simpl.
      + split.
        * constructor; [|exact Hnd]. intros Hin. apply Hge in Hin. lia.
        * intros i [<-|Hin]; [lia|]. apply Hge in Hin. lia.
      + split; [exact Hnd|]. intros i Hin. apply Hge in Hin. lia. }
  apply H.
Qed.

End Cleaner.

(** ** Feature engineering *)

Lemma feature_engineering_in (work : list Row) (r : Derived) :
  In r (feature_engineering work) ->
  In (base r) work
  /\ late r = where_1_0 (exceeds (delivery_time (base r))
                                 (mean (map delivery_time work))
                                 (var (map delivery_time work)))
  /\ age_group r = cut bins labels (agent_age (base r)).
Proof.
  unfold feature_engineering. intros H. apply in_map_iff in H.
  destruct H as (r0 & <- & Hin). simpl. auto.
Qed.

(** In exact arithmetic the late flag of a record is 1 or 0, and it is 1
    exactly when the delivery time of the record is above the mean plus the
    square root of the variance of the delivery times of the whole table
    handed to the feature step. *)
Lemma late_in_exact_arithmetic (work : list Row) (r : Derived) :
  In r (feature_engineering work) ->
  (late r = 1 \/ late r = 0)%Z
  /\ (late r = 1%Z
      <-> exists x m v,
            delivery_time (base r) = Some x
            /\ mean (map delivery_time work) = Some m
            /\ var (map delivery_time work) = Some v
            /\ (Q2R m + sqrt (Q2R v) < Q2R x)%R).
Proof.
  intros Hin. apply feature_engineering_in in Hin.
  destruct Hin as (_ & Hlate & _).
  split.
  - rewrite Hlate. destruct (exceeds _ _ _); simpl; auto.
  - rewrite Hlate.
    destruct (delivery_time (base r)) as [x|] eqn:Ex;
      destruct (mean (map delivery_time work)) as [m|] eqn:Em;
      destruct (var (map delivery_time work)) as [v|] eqn:Ev;
      try (simpl; split; [discriminate | intros (? & ? & ? & ? & ? & ? & _); discriminate]).
    pose proof (exceeds_real x m v (var_nonneg _ _ Ev)) as Hreal.
    destruct (exceeds (Some x) (Some m) (Some v)) eqn:E; simpl; split.
    + intros _. exists x, m, v. repeat split; auto. now apply Hreal.
    + reflexivity.
    + discriminate.
    + intros (x' & m' & v' & [= <-] & [= <-] & [= <-] & Hlt).
      apply Hreal in Hlt. discriminate.
Qed.

(** ** The late flag in binary64 (lines 91-93) *)

(** NaN goes through the division, the square root and the sum, and no
    comparison with NaN holds. *)
Lemma div_by_nan (x : PrimFloat.float) :
  FloatOps.Prim2SF (PrimFloat.div x PrimFloat.nan) = SpecFloat.S754_nan.
Proof.
  rewrite FloatAxioms.div_spec.
  change (FloatOps.Prim2SF PrimFloat.nan) with SpecFloat.S754_nan.
  unfold FloatAxioms.SF64div, SpecFloat.SFdiv.
  destruct (FloatOps.Prim2SF x); reflexivity.
Qed.

Lemma sqrt_of_nan (x : PrimFloat.float) :
  FloatOps.Prim2SF x = SpecFloat.S754_nan ->
  FloatOps.Prim2SF (PrimFloat.sqrt x) = SpecFloat.S754_nan.
Proof.
  intros H. rewrite FloatAxioms.sqrt_spec, H. reflexivity.
Qed.

Lemma add_nan (x y : PrimFloat.float) :
  FloatOps.Prim2SF y = SpecFloat.S754_nan ->
  FloatOps.Prim2SF (PrimFloat.add x y) = SpecFloat.S754_nan.
Proof.
  intros H. rewrite FloatAxioms.add_spec, H.
  unfold FloatAxioms.SF64add, SpecFloat.SFadd.
  destruct (FloatOps.Prim2SF x); reflexivity.
Qed.

Lemma nan_not_below (x y : PrimFloat.float) :
  FloatOps.Prim2SF x = SpecFloat.S754_nan -> PrimFloat.ltb x y = false.
Proof.
  intros H. rewrite FloatAxioms.ltb_spec, H. reflexivity.
Qed.

Lemma float_count_le (col : list PrimFloat.float) :
  (Float64.count col <= List.length col)%nat.
Proof. unfold Float64.count. apply filter_length_le. Qed.

(** With no more values than [ddof] the variance is NaN. *)
Lemma float_var_of_few (ddof : nat) (col : list PrimFloat.float) :
  (List.length col <= ddof)%nat ->
  FloatOps.Prim2SF (Float64.var ddof col) = SpecFloat.S754_nan.
Proof.
  intros Hfew. unfold Float64.var.
  assert (Hleb : (Float64.count col <=? ddof)%nat = true).
  { apply Nat.leb_le. pose proof (float_count_le col). lia. }
  rewrite Hleb. apply div_by_nan.
Qed.

(** The fuel of the pairwise summation: with as much fuel as the column is
    long the splitting never runs out of it, and more fuel changes
    nothing. *)
Lemma pairwise_sum_fuel (k1 k2 : nat) (a : list PrimFloat.float) :
  (List.length a <= k1)%nat -> (List.length a <= k2)%nat ->
  Float64.pairwise_sum k1 a = Float64.pairwise_sum k2 a.
Proof.
  revert k2 a. induction k1 as [|k1 IH]; intros k2 a H1 H2.
  - destruct a; [|simpl in H1; lia]. now destruct k2.
  - destruct k2 as [|k2]; [destruct a; [reflexivity | simpl in H2; lia]|].
    cbn [Float64.pairwise_sum].
    destruct (List.length a <? 8)%nat eqn:E8; [reflexivity|].
    destruct (List.length a <=? 128)%nat eqn:E128; [reflexivity|].
    apply Nat.ltb_ge in E8. apply Nat.leb_gt in E128.
    pose proof (Nat.div_mod_eq (List.length a) 2) as Hhalf.
    pose proof (Nat.mod_upper_bound (List.length a) 2) as Hrest.
    pose proof (Nat.mod_upper_bound (List.length a / 2) 8) as Hblock.
    pose proof (Nat.Div0.mod_le (List.length a / 2) 8) as Hle.
    revert Hhalf Hrest Hblock Hle.
    generalize (List.length a mod 2)%nat, ((List.length a / 2) mod 8)%nat.
    generalize (List.length a / 2)%nat at 1 2 3 4 5 6.
    intros h r m Hhalf Hrest Hblock Hle.
    f_equal; apply IH; rewrite ?length_firstn, ?length_skipn; lia.
Qed.

Lemma late_flags_in {A} (time : A -> PrimFloat.float) (work : list A)
  (r : A) (flag : Z) :
  In (r, flag) (Float64.late_flags time work) ->
  In r work
  /\ flag = where_1_0
              (PrimFloat.ltb
                 (PrimFloat.add (Float64.mean (map time work))
                                (Float64.std (map time work)))
                 (time r)).
Proof.
  unfold Float64.late_flags. intros H. apply in_map_iff in H.
  destruct H as (r0 & [= <- <-] & Hin). now split.
Qed.




(** On the times of the specification's example the flags in exact
    arithmetic are the flags in binary64. *)
Example exact_and_binary64_flags :
  map late
      (feature_engineering
         (map (fun ix => timed_row (fst ix) (snd ix))
              (combine (seq 0 4) [10; 20; 30; 1000]%Q)))
  = map snd (Float64.late_flags (fun x => x) times_example).
Proof. vm_compute. reflexivity. Qed.


Ltac order_facts :=
  repeat match goal with
         | H : Qlt_bool _ _ = true |- _ => apply Qlt_bool_iff in H
         | H : Qlt_bool _ _ = false |- _ => apply Qlt_bool_false_iff in H
         | H : Qeq_bool _ _ = true |- _ => apply Qeq_bool_iff in H
         | H : Qeq_bool _ _ = false |- _ => apply Qeq_bool_neq in H
         end.

Lemma cut_age (a : Q) :
  ((0 <= a <= 24)%Q -> cut bins labels (Some a) = Some "<25")
  /\ ((24 < a <= 40)%Q -> cut bins labels (Some a) = Some "25–40")
  /\ ((40 < a <= 100)%Q -> cut bins labels (Some a) = Some "40+")
  /\ ((a < 0 \/ 100 < a)%Q -> cut bins labels (Some a) = None).
Proof.
  unfold cut, bins, labels, searchsorted_left. simpl hd. simpl filter.
  destruct (Qeq_bool a 0) eqn:E0;
    destruct (Qlt_bool 0 a) eqn:L0;
    destruct (Qlt_bool 24 a) eqn:L24;
    destruct (Qlt_bool 40 a) eqn:L40;
    destruct (Qlt_bool 100 a) eqn:L100;
    order_facts; simpl;
    repeat split; intros; try reflexivity; exfalso; lra.
Qed.

(** C4.  The age group of a record is "<25" for an age in [0, 24], "25–40"
    for an age in (24, 40], "40+" for an age in (40, 100], and missing for a
    missing age or one outside [0, 100]; so 0 and 24 fall in "<25", 25 and 40
    in "25–40", 41 and 100 in "40+", and 150 and a missing age in no group. *)
Theorem age_group_buckets (work : list Row) (r : Derived) :
  In r (feature_engineering work) ->
  match agent_age (base r) with
  | None => age_group r = None
  | Some a =>
      ((0 <= a <= 24)%Q -> age_group r = Some "<25")
      /\ ((24 < a <= 40)%Q -> age_group r = Some "25–40")
      /\ ((40 < a <= 100)%Q -> age_group r = Some "40+")
      /\ ((a < 0 \/ 100 < a)%Q -> age_group r = None)
  end
  /\ map (cut bins labels)
         [Some 0; Some 24; Some 25; Some 40; Some 41; Some 100; Some 150; None]%Q
     = [Some "<25"; Some "<25"; Some "25–40"; Some "25–40";
        Some "40+"; Some "40+"; None; None].
Proof.
  intros Hin. apply feature_engineering_in in Hin.
  destruct Hin as (_ & _ & Hage). split; [|reflexivity].
  rewrite Hage. destruct (agent_age (base r)) as [a|]; [apply cut_age | reflexivity].
Qed.

Lemma age_group_buckets_witness :
  In sample_record_middle sample_work
  /\ age_group sample_record_middle = Some "25–40".
Proof.
  assert (Hin : In sample_record_middle sample_work).
  { vm_compute. right. left. reflexivity. }
  split; [exact Hin|].
  pose proof (age_group_buckets (cleaned digits_to_numeric sample_file)
                sample_record_middle Hin) as [Hbuckets _].
  simpl in Hbuckets. apply Hbuckets. split; [reflexivity | discriminate].
Defined.

(** ** Filters *)

Lemma mem_In (s : string) (l : list string) : mem s l = true <-> In s l.
Proof.
  unfold mem. rewrite existsb_exists. split.
  - intros (x & Hin & Heq). apply String.eqb_eq in Heq. now subst.
  - intros Hin. exists s. split; [exact Hin | apply String.eqb_refl].
Qed.

Lemma isin_member (v : cell) (sel : list string) :
  isin v sel = true <-> member v sel.
Proof.
  unfold member. destruct v as [s|]; simpl.
  - rewrite mem_In. split.
    + intros H. now exists s.
    + now intros (s' & [= <-] & H).
  - split; [discriminate | intros (s & H & _); discriminate].
Qed.

Lemma filter_none {A} (f : A -> bool) (l : list A) :
  (forall x, In x l -> f x = false) -> filter f l = [].
Proof.
  induction l as [|x rest IH]; simpl; intros H; [reflexivity|].
  rewrite (H x (or_introl eq_refl)). apply IH. intros; apply H; now right.
Qed.

Lemma isin_nil (v : cell) : isin v [] = false.
Proof. now destruct v. Qed.

Lemma member_not_missing (v : cell) (sel : list string) : member v sel -> v <> None.
Proof. intros (s & -> & _). discriminate. Qed.

Lemma passes_members (sel : Selections) (r : Derived) :
  passes sel r = true
  <-> member (weather (base r)) (weather_sel sel)
      /\ member (traffic (base r)) (traffic_sel sel)
      /\ member (vehicle (base r)) (vehicle_sel sel)
      /\ member (area (base r)) (area_sel sel)
      /\ member (category (base r)) (category_sel sel).
Proof.
  unfold passes. rewrite !andb_true_iff, !isin_member. tauto.
Qed.

(** C3.  A record is in the filtered view exactly when it is a record of the
    table and its value in each of the five categorical fields is a member of
    the selection of that field; so one empty selection empties the view,
    whatever the other four hold. *)
Theorem filter_and_semantics (work : list Derived) (sel : Selections) :
  (forall r,
     In r (filtered sel work)
     <-> In r work
         /\ member (weather (base r)) (weather_sel sel)
         /\ member (traffic (base r)) (traffic_sel sel)
         /\ member (vehicle (base r)) (vehicle_sel sel)
         /\ member (area (base r)) (area_sel sel)
         /\ member (category (base r)) (category_sel sel))
  /\ (weather_sel sel = [] \/ traffic_sel sel = [] \/ vehicle_sel sel = []
      \/ area_sel sel = [] \/ category_sel sel = []
      -> filtered sel work = []).
Proof.
  split.
  - intros r. unfold filtered. rewrite filter_In, passes_members. tauto.
  - intros Hempty. unfold filtered.
    apply filter_none. intros r _. unfold passes.
    destruct Hempty as [H|[H|[H|[H|H]]]]; rewrite H, isin_nil;
      rewrite ?andb_false_r; reflexivity.
Qed.

Lemma insert_sorted_In (x y : string) (l : list string) :
  In y (insert_sorted x l) <-> y = x \/ In y l.
Proof.
  induction l as [|z rest IH]; simpl.
  - intuition.
  - destruct (String.leb x z); simpl; rewrite ?IH; intuition.
Qed.

Lemma sorted_In (y : string) (l : list string) : In y (sorted l) <-> In y l.
Proof.
  unfold sorted. induction l as [|x rest IH]; simpl; [tauto|].
  rewrite insert_sorted_In, IH. intuition.
Qed.

Lemma unique_In (y : string) (l : list string) : In y (unique l) <-> In y l.
Proof.
  induction l as [|x rest IH]; simpl; [tauto|].
  rewrite filter_In, IH, negb_true_iff, String.eqb_neq.
  destruct (string_dec x y) as [->|Hne]; intuition.
Qed.

Lemma dropna_cells_In (s : string) (col : list cell) :
  In s (dropna_cells col) <-> In (Some s) col.
Proof.
  induction col as [|[t|] rest IH]; simpl; [tauto| |].
  - rewrite IH. split; intros [H|H]; auto; left; congruence.
  - rewrite IH. split; [auto|]. intros [H|H]; [discriminate | exact H].
Qed.

(** The options of a filter are the values its column holds. *)
Lemma filter_values_In (s : string) (col : list cell) :
  In s (filter_values col) <-> In (Some s) col.
Proof.
  unfold filter_values. now rewrite sorted_In, unique_In, dropna_cells_In.
Qed.

Lemma member_filter_values (field : Row -> cell) (work : list Derived) (r : Derived) :
  In r work -> field (base r) <> None ->
  member (field (base r)) (filter_values (map (fun r => field (base r)) work)).
Proof.
  intros Hin Hsome. destruct (field (base r)) as [s|] eqn:E; [|congruence].
  exists s. split; [reflexivity|]. apply filter_values_In.
  apply in_map_iff. now exists r.
Qed.

Lemma bind_done {A B} (m : Script A) (k : A -> Script B)
  (page page' : list event) (a : A) :
  m page = (Done a, page') -> bind m k page = k a page'.
Proof. unfold bind. now intros ->. Qed.

(** A user who touches nothing holds every option of a filter. *)
Lemma make_filter_select_all (work : list Derived) (col : string)
  (field : Row -> cell) (page : list event) :
  exists page',
    make_filter select_all work col field page
    = (Done (filter_values (map (fun r => field (base r)) work)), page').
Proof.
  unfold make_filter.
  destruct (filter_values (map (fun r => field (base r)) work)) as [|v vs].
  - now exists page.
  - unfold bind, show, ret, select_all. eauto.
Qed.

Lemma make_filters_select_all (work : list Derived) (page : list event) :
  exists page',
    make_filters select_all work page = (Done (default_selections work), page').
Proof.
  unfold make_filters.
  destruct (make_filter_select_all work "weather" weather page) as (p1 & H1).
  rewrite (bind_done _ _ _ _ _ H1).
  destruct (make_filter_select_all work "traffic" traffic p1) as (p2 & H2).
  rewrite (bind_done _ _ _ _ _ H2).
  destruct (make_filter_select_all work "vehicle" vehicle p2) as (p3 & H3).
  rewrite (bind_done _ _ _ _ _ H3).
  destruct (make_filter_select_all work "area" area p3) as (p4 & H4).
  rewrite (bind_done _ _ _ _ _ H4).
  destruct (make_filter_select_all work "category" category p4) as (p5 & H5).
  rewrite (bind_done _ _ _ _ _ H5).
  now exists p5.
Qed.

(** C10.  Every record of the filtered view holds a value in each of the
    five categorical fields.  A record of the table with a missing value in
    one of them is left out even when the user keeps the default selections
    (every option of every filter), under which the view is exactly the
    records with all five values present. *)
Theorem filtered_view_has_all_categories
  (work : list Derived) (sel : Selections) (r : Derived) :
  (In r (filtered sel work) ->
     weather (base r) <> None /\ traffic (base r) <> None
     /\ vehicle (base r) <> None /\ area (base r) <> None
     /\ category (base r) <> None)
  /\ (forall page,
        fst (make_filters select_all work page) = Done (default_selections work))
  /\ (In r (filtered (default_selections work) work)
      <-> In r work
          /\ weather (base r) <> None /\ traffic (base r) <> None
          /\ vehicle (base r) <> None /\ area (base r) <> None
          /\ category (base r) <> None).
Proof.
  assert (Hview : forall s,
             In r (filtered s work) ->
             weather (base r) <> None /\ traffic (base r) <> None
             /\ vehicle (base r) <> None /\ area (base r) <> None
             /\ category (base r) <> None).
  { intros s H. unfold filtered in H. apply filter_In in H.
    destruct H as [_ H]. apply passes_members in H.
    destruct H as (H1 & H2 & H3 & H4 & H5).
    repeat split; eapply member_not_missing; eassumption. }
  split; [apply (Hview sel)|]. split.
  - intros page. destruct (make_filters_select_all work page) as (page' & ->).
    reflexivity.
  - split.
    + intros H. split; [|now apply (Hview (default_selections work))].
      unfold filtered in H. apply filter_In in H. tauto.
    + intros (Hin & H1 & H2 & H3 & H4 & H5).
      unfold filtered. apply filter_In. split; [exact Hin|].
      apply passes_members. unfold default_selections. simpl.
      repeat split.
      * now apply (member_filter_values weather).
      * now apply (member_filter_values traffic).
      * now apply (member_filter_values vehicle).
      * now apply (member_filter_values area).
      * now apply (member_filter_values category).
Qed.

(** ** Pieces of script *)

Create HintDb script.

Lemma completes_ret {A} (a : A) : completes (ret a).
Proof. intros page. exists a, []. unfold ret. now rewrite app_nil_r. Qed.

Lemma completes_show (e : event) : completes (show e).
Proof. intros page. now exists tt, [e]. Qed.

Lemma completes_bind {A B} (m : Script A) (k : A -> Script B) :
  completes m -> (forall a, completes (k a)) -> completes (bind m k).
Proof.
  intros Hm Hk page. destruct (Hm page) as (a & more & Ha).
  destruct (Hk a (page ++ more)) as (b & more' & Hb).
  exists b, (more ++ more'). rewrite (bind_done _ _ _ _ _ Ha), Hb.
  now rewrite app_assoc.
Qed.

Lemma completes_show_bar (df : list (string * float)) (x y t : string) :
  completes (show_bar df x y t).
Proof. destruct df; apply completes_show. Qed.

Lemma completes_show_scatter (df : list Derived) (x y c t : string) :
  completes (show_scatter df x y c t).
Proof. destruct df; apply completes_show. Qed.

Lemma ends_with_show (e : event) : ends_with e (show e).
Proof. intros page. now exists tt, page. Qed.

Lemma ends_with_bind {A B} (e : event) (m : Script A) (k : A -> Script B) :
  completes m -> (forall a, ends_with e (k a)) -> ends_with e (bind m k).
Proof.
  intros Hm Hk page. destruct (Hm page) as (a & more & Ha).
  destruct (Hk a (page ++ more)) as (b & earlier & Hb).
  exists b, earlier. now rewrite (bind_done _ _ _ _ _ Ha).
Qed.

#[local] Hint Resolve completes_ret completes_show completes_show_bar
  completes_show_scatter : script.

Ltac script_steps :=
  repeat (apply ends_with_bind; [auto with script | intros ?]).

Lemma bind_stopped {A B} (m : Script A) (k : A -> Script B)
  (page page' : list event) :
  m page = (Stopped, page') -> bind m k page = (Stopped, page').
Proof. unfold bind. now intros ->. Qed.

Lemma for_each_show {A} (f : A -> event) (xs : list A) (page : list event) :
  for_each xs (fun x => show (f x)) page = (Done tt, page ++ map f xs).
Proof.
  revert page. induction xs as [|x rest IH]; intros page; simpl.
  - unfold ret. now rewrite app_nil_r.
  - unfold bind, show at 1. rewrite IH. now rewrite <- app_assoc.
Qed.


Lemma show_bar_event (df : list (string * float)) (x y t : string) :
  show_bar df x y t = show (bar_event df x y t).
Proof. now destruct df. Qed.

Lemma show_scatter_event (df : list Derived) (x y c t : string) :
  show_scatter df x y c t = show (scatter_event df x y c t).
Proof. now destruct df. Qed.

Lemma bind_show {B} (e : event) (k : unit -> Script B) (page : list event) :
  bind (show e) k page = k tt (page ++ [e]).
Proof. reflexivity. Qed.

(** The figures and the charts, as one list of things shown. *)
Lemma present_shows (work view : list Derived) (page : list event) :
  present work view page = (Done tt, page ++ present_events work view).
Proof.
  unfold present. rewrite !show_bar_event, show_scatter_event.
  replace (match view with
           | [] => show (info "No data for selected filters.")
           | _ :: _ =>
               show (plotly_box view "category" "delivery_time"
                       "Delivery Time Distribution by Category")
           end) with (show (box_event view)) by now destruct view.
  repeat rewrite bind_show. unfold show, present_events, final_caption.
  repeat rewrite <- app_assoc. reflexivity.
Qed.

Lemma bind_raised {A B} (m : Script A) (k : A -> Script B)
  (page page' : list event) (exn : string) :
  m page = (Raised exn, page') -> bind m k page = (Raised exn, page').
Proof. unfold bind. now intros ->. Qed.

(** The column mapping, when the headers give a delivery time column. *)
Lemma resolve_columns_page (df : DataFrame) (page : list event) :
  truthy (lookup "delivery_time" (find_col variants (columns df))) = true ->
  resolve_columns df page
  = (Done (find_col variants (columns df)),
     page ++ sidebar_header "🧩 Column Mapping"
          :: map mapping_line (find_col variants (columns df))).
Proof.
  intros Htime. unfold resolve_columns. rewrite Htime.
  unfold bind at 1. unfold show at 1.
  unfold bind at 1. fold mapping_line. rewrite for_each_show.
  unfold bind, ret. now rewrite <- app_assoc.
Qed.

(** The loop of lines 69-74: it leaves on the exception of line 72 at the
    first field whose source label two columns carry, and goes through when
    there is none. *)
Lemma assign_column_page (df : DataFrame) (kv : string * option string)
  (page : list event) :
  assign_column df kv page
  = if clashes (columns df) (snd kv)
    then (Raised ("ValueError: Cannot set a DataFrame with multiple columns to the single column "
                  ++ fst kv)%string,
          page ++ [exception ("ValueError: Cannot set a DataFrame with multiple columns to the single column "
                              ++ fst kv)%string])
    else (Done tt, page).
Proof. unfold assign_column. now destruct (clashes (columns df) (snd kv)). Qed.

Lemma assign_columns_raise (df : DataFrame)
  (col_map : list (string * option string)) (page : list event) :
  existsb (fun kv => clashes (columns df) (snd kv)) col_map = true ->
  exists exn,
    for_each col_map (assign_column df) page = (Raised exn, page ++ [exception exn]).
Proof.
  induction col_map as [|kv rest IH]; simpl; [discriminate|].
  intros H. unfold bind. rewrite assign_column_page.
  destruct (clashes (columns df) (snd kv)); [eauto|].
  simpl in H. now apply IH.
Qed.

Lemma assign_columns_pass (df : DataFrame)
  (col_map : list (string * option string)) (page : list event) :
  existsb (fun kv => clashes (columns df) (snd kv)) col_map = false ->
  for_each col_map (assign_column df) page = (Done tt, page).
Proof.
  induction col_map as [|kv rest IH]; simpl; [reflexivity|].
  intros H. apply orb_false_iff in H. destruct H as [Hkv Hrest].
  unfold bind. rewrite assign_column_page, Hkv. now apply IH.
Qed.

Lemma make_filter_page (multiselect : string -> list string -> list string)
  (work : list Derived) (col : string) (field : Row -> cell) (page : list event) :
  exists sel widgets,
    make_filter multiselect work col field page = (Done sel, page ++ widgets)
    /\ forallb is_widget widgets = true
    /\ (List.length widgets <= 1)%nat
    /\ (work = [] -> widgets = []).
Proof.
  unfold make_filter.
  destruct (filter_values (map (fun r => field (base r)) work)) as [|v vs] eqn:E.
  - exists [], []. rewrite app_nil_r. repeat split; auto.
  - eexists. eexists. split; [reflexivity|]. repeat split; auto.
    intros ->. discriminate.
Qed.

Lemma make_filters_page (multiselect : string -> list string -> list string)
  (work : list Derived) (page : list event) :
  exists sel widgets,
    make_filters multiselect work page = (Done sel, page ++ widgets)
    /\ forallb is_widget widgets = true
    /\ (List.length widgets <= 5)%nat
    /\ (work = [] -> widgets = []).
Proof.
  unfold make_filters.
  destruct (make_filter_page multiselect work "weather" weather page)
    as (s1 & w1 & H1 & F1 & L1 & E1).
  rewrite (bind_done _ _ _ _ _ H1).
  destruct (make_filter_page multiselect work "traffic" traffic (page ++ w1))
    as (s2 & w2 & H2 & F2 & L2 & E2).
  rewrite (bind_done _ _ _ _ _ H2).
  destruct (make_filter_page multiselect work "vehicle" vehicle ((page ++ w1) ++ w2))
    as (s3 & w3 & H3 & F3 & L3 & E3).
  rewrite (bind_done _ _ _ _ _ H3).
  destruct (make_filter_page multiselect work "area" area (((page ++ w1) ++ w2) ++ w3))
    as (s4 & w4 & H4 & F4 & L4 & E4).
  rewrite (bind_done _ _ _ _ _ H4).
  destruct (make_filter_page multiselect work "category" category
              ((((page ++ w1) ++ w2) ++ w3) ++ w4))
    as (s5 & w5 & H5 & F5 & L5 & E5).
  rewrite (bind_done _ _ _ _ _ H5).
  exists (mkSelections s1 s2 s3 s4 s5), (w1 ++ w2 ++ w3 ++ w4 ++ w5).
  split; [unfold ret; now rewrite <- !app_assoc|].
  split; [now rewrite !forallb_app, F1, F2, F3, F4, F5|].
  split; [rewrite !length_app; lia|].
  intros Hw. now rewrite (E1 Hw), (E2 Hw), (E3 Hw), (E4 Hw), (E5 Hw).
Qed.

(** The records a page draws, piece by piece. *)
Lemma shown_records_app (page more : list event) :
  shown_records (page ++ more) = shown_records page ++ shown_records more.
Proof. unfold shown_records. apply flat_map_app. Qed.

Lemma shown_records_mapping (col_map : list (string * option string)) :
  shown_records (map mapping_line col_map) = [].
Proof. induction col_map as [|kv rest IH]; simpl; auto. Qed.

Lemma shown_records_widgets (widgets : list event) :
  forallb is_widget widgets = true -> shown_records widgets = [].
Proof.
  induction widgets as [|e rest IH]; simpl; [reflexivity|].
  intros H. apply andb_true_iff in H. destruct H as [He Hrest].
  destruct e; try discriminate. simpl. now apply IH.
Qed.

(** The figures and the charts draw the records of the view, in the scatter
    plot and in the box plot, and no other record. *)
Lemma shown_records_present (work view : list Derived) :
  shown_records (present_events work view) = view ++ view.
Proof.
  unfold present_events, bar_event, scatter_event, box_event, final_caption.
  destruct (groupby_mean weather view), (groupby_mean traffic view),
    (groupby_mean vehicle view), (groupby_mean area view), view;
    cbn [shown_records flat_map app]; now rewrite ?app_nil_r.
Qed.

Section Runs.

Variable to_numeric : string -> float.
Variable multiselect : string -> list string -> list string.

Lemma completes_make_filter (work : list Derived) (col : string)
  (field : Row -> cell) :
  completes (make_filter multiselect work col field).
Proof.
  unfold make_filter.
  destruct (filter_values _); [apply completes_ret|].
  apply completes_bind; auto with script.
Qed.

Lemma completes_make_filters (work : list Derived) :
  completes (make_filters multiselect work).
Proof.
  unfold make_filters.
  repeat (apply completes_bind; [apply completes_make_filter | intros ?]).
  apply completes_ret.
Qed.

(** The figures and the charts are shown down to the last caption, for the
    empty view as for any other. *)
Lemma present_ends (work view : list Derived) :
  ends_with final_caption (present work view).
Proof.
  unfold present. script_steps.
  - destruct view; auto with script.
  - apply ends_with_show.
Qed.

Lemma stops_resolve_columns (df : DataFrame) (page : list event) :
  truthy (lookup "delivery_time" (find_col variants (columns df))) = false ->
  resolve_columns df page
  = (Stopped,
     page ++ [sidebar_header "🧩 Column Mapping"]
          ++ map mapping_line (find_col variants (columns df))
          ++ [no_delivery_time]).
Proof.
  intros Htime. unfold resolve_columns. rewrite Htime.
  unfold bind at 1. unfold show at 1.
  unfold bind at 1. fold mapping_line. rewrite for_each_show.
  unfold bind, show, st_stop. now rewrite <- !app_assoc.
Qed.

(** What lines 80-174 show for the table of line 78: the data summary, the
    filters with their widgets, and the figures and charts of the filtered
    view of the derived table. *)
Lemma after_standardize_page (work : list Row) (page : list event) :
  let table := feature_engineering (dropna work) in
  exists sel widgets,
    after_standardize multiselect work page
    = (Done tt,
       page ++ summary_events (List.length work) (dropna work)
            ++ sidebar_header "🔍 Filters" :: widgets
            ++ present_events table (filtered sel table))
    /\ forallb is_widget widgets = true
    /\ (List.length widgets <= 5)%nat
    /\ (table = [] -> widgets = []).
Proof.
  intros table. unfold after_standardize. cbv zeta. rewrite 5 bind_show.
  fold table.
  match goal with
  | |- context [bind (make_filters multiselect table) _ ?shown] =>
      destruct (make_filters_page multiselect table shown)
        as (sel & widgets & Hfilters & Hwidgets & Hcount & Hnone)
  end.
  rewrite (bind_done _ _ _ _ _ Hfilters), present_shows.
  exists sel, widgets.
  split; [|split; [exact Hwidgets|split; [exact Hcount|exact Hnone]]].
  unfold summary_events. f_equal.
  repeat rewrite <- app_assoc. reflexivity.
Qed.

(** Lines 80-174 run down to the last caption, whatever the table. *)
Lemma after_standardize_ends (work : list Row) :
  ends_with final_caption (after_standardize multiselect work).
Proof.
  unfold after_standardize. cbv zeta.
  do 5 (apply ends_with_bind; [auto with script | intros _]).
  apply ends_with_bind; [apply completes_make_filters | intros sel].
  apply present_ends.
Qed.

(** The records lines 80-174 draw are records of the derived table. *)
Lemma after_standardize_shows (work : list Row) (page : list event) :
  exists more,
    after_standardize multiselect work page = (Done tt, page ++ more)
    /\ incl (shown_records more) (feature_engineering (dropna work)).
Proof.
  destruct (after_standardize_page work page)
    as (sel & widgets & Hrun & Hwidgets & _).
  eexists. split; [exact Hrun|].
  rewrite shown_records_app. cbn [shown_records flat_map app].
  change (flat_map _ ?l) with (shown_records l).
  rewrite shown_records_app, (shown_records_widgets widgets Hwidgets),
    shown_records_present.
  change (shown_records (summary_events _ _)) with (@nil Derived).
  intros r Hr. rewrite !in_app_iff in Hr. cbn [In] in Hr.
  assert (Hview : In r (filtered sel (feature_engineering (dropna work))))
    by tauto.
  unfold filtered in Hview. apply filter_In in Hview. tauto.
Qed.

(** A run draws records of the derived table of its file only. *)
Lemma run_shows (df_raw : DataFrame) :
  incl (shown_records (snd (run to_numeric multiselect (Some df_raw))))
       (feature_engineering (cleaned to_numeric df_raw)).
Proof.
  unfold run, app. rewrite 2 bind_show.
  destruct (columns df_raw) as [|c cs] eqn:Ecols.
  { unfold load. rewrite Ecols. intros r []. }
  assert (Hload : forall page, load (Some df_raw) page = (Done df_raw, page)).
  { intros page. unfold load. now rewrite Ecols. }
  rewrite (bind_done _ _ _ _ _ (Hload _)).
  destruct (truthy (lookup "delivery_time"
                      (find_col variants (columns (basic_cleaning df_raw))))) eqn:Htime.
  - rewrite (bind_done _ _ _ _ _
               (resolve_columns_page (basic_cleaning df_raw) _ Htime)).
    destruct (existsb (fun kv => clashes (columns (basic_cleaning df_raw)) (snd kv))
                (find_col variants (columns (basic_cleaning df_raw)))) eqn:Hclash.
    + match goal with
      | |- context [bind (standardize _ ?df ?cm) _ ?page] =>
          destruct (assign_columns_raise df cm page Hclash) as (exn & Hraise)
      end.
      erewrite bind_raised; [|unfold standardize; apply bind_raised; exact Hraise].
      cbn [snd]. rewrite !shown_records_app. cbn [shown_records flat_map app].
      change (flat_map _ (map mapping_line ?l)) with (shown_records (map mapping_line l)).
      rewrite shown_records_mapping. intros r [].
    + match goal with
      | |- context [bind (standardize _ ?df ?cm) _ ?page] =>
          assert (Hstd : standardize to_numeric df cm page
                         = (Done (standardize_rows to_numeric df cm), page))
      end.
      { unfold standardize.
        rewrite (bind_done _ _ _ _ _ (assign_columns_pass _ _ _ Hclash)).
        reflexivity. }
      rewrite (bind_done _ _ _ _ _ Hstd).
      match goal with
      | |- context [after_standardize _ ?work ?page] =>
          destruct (after_standardize_shows work page) as (more & Hrun & Hincl)
      end.
      rewrite Hrun. cbn [snd]. rewrite !shown_records_app.
      cbn [shown_records flat_map app].
      change (flat_map _ (map mapping_line ?l)) with (shown_records (map mapping_line l)).
      rewrite shown_records_mapping. exact Hincl.
  - rewrite (bind_stopped _ _ _ _ (stops_resolve_columns _ _ Htime)).
    cbn [snd]. rewrite !shown_records_app. cbn [shown_records flat_map app].
    rewrite shown_records_mapping. intros r Hr. vm_compute in Hr. destruct Hr.
Qed.

(** The two ends the script makes itself: without the file, and with a file
    whose headers give no delivery time column, the run stops on its
    message. *)
Example designed_stops :
  run to_numeric multiselect None = (Stopped, page_head ++ [dataset_not_found])
  /\ run to_numeric multiselect (Some sample_file_no_time)
     = (Stopped,
        page_head
        ++ sidebar_header "🧩 Column Mapping"
           :: map mapping_line (find_col variants ["Order"; "Weather"])
        ++ [no_delivery_time]).
Proof. split; reflexivity. Qed.

(** C7, on the code.  The two tests of the script are not the only ways its
    run ends early.  A file whose headers are [Time Taken] and [Time Taken]
    with a space after it has, once line 26 has trimmed them, two columns
    under one label; the label backs the delivery time, and line 72 leaves
    on a [ValueError] that nothing catches: the run is neither stopped on a
    message of the script nor complete, and the page ends on the exception,
    below the title, the caption and the column mapping.  An empty file
    leaves on the exception of [pd.read_csv] at line 23 in the same way. *)
Theorem uncaught_exception_ends_run :
  let result := run to_numeric multiselect (Some sample_file_twice) in
  let exn := "ValueError: Cannot set a DataFrame with multiple columns to the single column delivery_time" in
  columns (basic_cleaning sample_file_twice) = ["Time Taken"; "Time Taken"]
  /\ lookup "delivery_time" (find_col variants ["Time Taken"; "Time Taken"])
     = Some "Time Taken"
  /\ result
     = (Raised exn,
        page_head
        ++ sidebar_header "🧩 Column Mapping"
           :: map mapping_line (find_col variants ["Time Taken"; "Time Taken"])
        ++ [exception exn])
  /\ fst result <> Stopped
  /\ fst result <> Done tt
  /\ ~ In final_caption (snd result)
  /\ run to_numeric multiselect (Some {| columns := []; data := [] |})
     = (Raised "EmptyDataError: No columns to parse from file",
        page_head ++ [exception "EmptyDataError: No columns to parse from file"]).
Proof.
  intros result exn.
  assert (Hrun : result
                 = (Raised exn,
                    page_head
                    ++ sidebar_header "🧩 Column Mapping"
                       :: map mapping_line (find_col variants ["Time Taken"; "Time Taken"])
                    ++ [exception exn])) by reflexivity.
  split; [reflexivity|]. split; [reflexivity|]. split; [exact Hrun|].
  rewrite Hrun. cbn [fst snd].
  split; [discriminate|]. split; [discriminate|]. split; [|reflexivity].
  vm_compute. intuition discriminate.
Qed.

Lemma few_values_no_variance (col : list float) :
  (List.length col <= 1)%nat -> var col = None.
Proof.
  destruct col as [|[x|] [|y rest]]; simpl; try reflexivity; lia.
Qed.

Lemma exceeds_undefined_variance (x m : float) : exceeds x m None = false.
Proof. now destruct x, m. Qed.

(** C8.  When the table has one record with a delivery time, or none, the
    variance of the delivery times, and with it the standard deviation, is
    NaN (and so is the mean of no record); every late flag is 0, in exact
    arithmetic and in binary64 alike; and the script does not fail for it:
    lines 80-174 run down to the last caption of the page. *)
Theorem few_records_none_late (work : list Row) :
  (List.length (dropna work) <= 1)%nat ->
  let table := dropna work in
  var (map delivery_time table) = None
  /\ (table = [] -> mean (map delivery_time table) = None)
  /\ (forall r, In r (feature_engineering table) -> late r = 0%Z)
  /\ (forall (time : Row -> PrimFloat.float) r flag,
        In (r, flag) (Float64.late_flags time table) -> flag = 0%Z)
  /\ ends_with final_caption (after_standardize multiselect work)
  /\ (forall page, fst (after_standardize multiselect work page) = Done tt).
Proof.
  intros Hfew table.
  assert (Hvar : var (map delivery_time table) = None).
  { apply few_values_no_variance. now rewrite length_map. }
  split; [exact Hvar|]. split; [now intros ->|]. split; [|split; [|split]].
  - intros r Hr. apply feature_engineering_in in Hr.
    destruct Hr as (_ & -> & _).
    now rewrite Hvar, exceeds_undefined_variance.
  - intros time r flag Hin. apply late_flags_in in Hin. destruct Hin as [_ ->].
    rewrite nan_not_below; [reflexivity|].
    apply add_nan, sqrt_of_nan, float_var_of_few. now rewrite length_map.
  - apply after_standardize_ends.
  - intros page. destruct (after_standardize_page work page) as (? & ? & -> & _).
    reflexivity.
Qed.

Lemma index_determines {A} (f : A -> nat) (l : list A) (a b : A) :
  NoDup (map f l) -> In a l -> In b l -> f a = f b -> a = b.
Proof.
  induction l as [|x rest IH]; simpl; intros Hnd Ha Hb Hf; [destruct Ha|].
  inversion Hnd as [|? ? Hnotin Hnd']; subst.
  destruct Ha as [->|Ha], Hb as [->|Hb]; auto.
  - exfalso. apply Hnotin. rewrite Hf. now apply in_map.
  - exfalso. apply Hnotin. rewrite <- Hf. now apply in_map.
Qed.

End Runs.

(** C9.  Take a file with ASCII headers and two runs of the script on it,
    the user holding any selections in the one and any in the other.  A
    record the one run draws and a record the other run draws under the
    same row label have the same late flag and the same age group: both are
    records of the one table the feature step derives from the whole
    cleaned table of the file, before any filter is made.  And whatever the
    table of line 78, the records lines 80-174 draw are records of the
    table derived from all of its timed records: no flag and no group is
    computed from a filtered view. *)
Theorem derived_fields_fixed_before_filtering
  (to_numeric : string -> float) (df_raw : DataFrame)
  (select1 select2 : string -> list string -> list string) (r1 r2 : Derived) :
  forallb ascii_text (columns df_raw) = true ->
  In r1 (shown_records (snd (run to_numeric select1 (Some df_raw)))) ->
  In r2 (shown_records (snd (run to_numeric select2 (Some df_raw)))) ->
  index (base r1) = index (base r2) ->
  (late r1 = late r2 /\ age_group r1 = age_group r2)
  /\ (In r1 (feature_engineering (cleaned to_numeric df_raw))
      /\ In r2 (feature_engineering (cleaned to_numeric df_raw)))
  /\ (forall select work page,
        exists more,
          after_standardize select work page = (Done tt, page ++ more)
          /\ incl (shown_records more) (feature_engineering (dropna work))).
Proof.
  intros _ H1 H2 Hindex.
  apply (run_shows to_numeric select1 df_raw) in H1.
  apply (run_shows to_numeric select2 df_raw) in H2.
  assert (Hsame : r1 = r2).
  { pose proof H1 as Hb1. pose proof H2 as Hb2.
    apply feature_engineering_in in Hb1, Hb2.
    destruct Hb1 as (Hb1 & Hl1 & Ha1), Hb2 as (Hb2 & Hl2 & Ha2).
    assert (Hbase : base r1 = base r2).
    { apply (index_determines index (cleaned to_numeric df_raw)); auto.
      apply cleaned_index_nodup. }
    destruct r1 as [b1 l1 a1], r2 as [b2 l2 a2]. simpl in *.
    subst b2. congruence. }
  split; [now rewrite Hsame|]. split; [now split|].
  intros select work page. apply after_standardize_shows.
Qed.

(** C2, on the code.  For an empty view the three figures are the texts
    "nan", "nan" and "nan%": the mean of no value is NaN and the number
    format prints it as it is.  The script shows them so, on any page and
    after any table, where the charts of the same view show a notice; so
    does the whole run on a file of one delivery whose one filter the user
    has cleared. *)
Theorem empty_view_shows_nan (work : list Derived) (page : list event) :
  metrics [] = ("nan", "nan", "nan%")
  /\ (In (metric "Avg Delivery Time (min)" "nan") (snd (present work [] page))
      /\ In (metric "Avg Agent Rating" "nan") (snd (present work [] page))
      /\ In (metric "Late Deliveries (%)" "nan%") (snd (present work [] page))
      /\ In (info "No data for selected filters.") (snd (present work [] page)))
  /\ (let shown := snd (run digits_to_numeric select_none (Some sample_file_one)) in
      In (write "Filtered records: 0 / 1") shown
      /\ In (metric "Avg Delivery Time (min)" "nan") shown
      /\ In (metric "Avg Agent Rating" "nan") shown
      /\ In (metric "Late Deliveries (%)" "nan%") shown).
Proof.
  split; [reflexivity|]. split.
  - rewrite present_shows. cbn [snd].
    repeat split; apply in_or_app; right; unfold present_events.
    + do 1 right. left. reflexivity.
    + do 2 right. left. reflexivity.
    + do 3 right. left. reflexivity.
    + do 16 right. left. reflexivity.
  - vm_compute. intuition.
Qed.

(** ** The properties on the sample files *)

Lemma dropna_keeps_timed_rows_witness :
  In (base sample_record_late) (cleaned digits_to_numeric sample_file)
  /\ exists q s,
       delivery_time (base sample_record_late) = Some q
       /\ digits_to_numeric s = Some q.
Proof.
  assert (Hin : In (base sample_record_late) (cleaned digits_to_numeric sample_file)).
  { vm_compute. right. right. left. reflexivity. }
  split; [exact Hin|].
  exact (proj1 (proj2 (dropna_keeps_timed_rows digits_to_numeric sample_file))
           (base sample_record_late) Hin).
Defined.

Lemma filter_and_semantics_witness :
  In sample_record_young (filtered sample_sel_sunny sample_work)
  /\ filtered sample_sel_no_vehicle sample_work = [].
Proof.
  destruct (filter_and_semantics sample_work sample_sel_sunny) as [Hview _].
  destruct (filter_and_semantics sample_work sample_sel_no_vehicle) as [_ Hempty].
  split.
  - apply Hview. split; [vm_compute; left; reflexivity|].
    unfold member. simpl.
    repeat split; eexists; (split; [reflexivity|]); simpl; auto.
  - apply Hempty. right. right. left. reflexivity.
Defined.

Lemma filtered_view_has_all_categories_witness :
  In sample_record_late sample_work
  /\ ~ In sample_record_late (filtered (default_selections sample_work) sample_work).
Proof.
  split; [vm_compute; right; right; left; reflexivity|].
  intros Hin.
  destruct (filtered_view_has_all_categories sample_work
              (default_selections sample_work) sample_record_late)
    as (Hview & _).
  destruct (Hview Hin) as (_ & Htraffic & _).
  apply Htraffic. reflexivity.
Defined.

Lemma derived_fields_fixed_before_filtering_witness :
  forallb ascii_text (columns sample_file) = true
  /\ In sample_record_young
        (shown_records (snd (run digits_to_numeric select_all (Some sample_file))))
  /\ In sample_record_young
        (shown_records (snd (run digits_to_numeric select_sunny (Some sample_file))))
  /\ In sample_record_middle
        (shown_records (snd (run digits_to_numeric select_all (Some sample_file))))
  /\ In sample_record_young sample_work.
Proof.
  assert (Hascii : forallb ascii_text (columns sample_file) = true) by reflexivity.
  assert (H1 : In sample_record_young
                 (shown_records
                    (snd (run digits_to_numeric select_all (Some sample_file))))).
  { vm_compute. left. reflexivity. }
  assert (H2 : In sample_record_young
                 (shown_records
                    (snd (run digits_to_numeric select_sunny (Some sample_file))))).
  { vm_compute. left. reflexivity. }
  split; [exact Hascii|]. split; [exact H1|]. split; [exact H2|].
  split; [vm_compute; right; left; reflexivity|].
  destruct (derived_fields_fixed_before_filtering digits_to_numeric sample_file
              select_all select_sunny sample_record_young sample_record_young
              Hascii H1 H2 eq_refl) as (_ & (Hin & _) & _).
  exact Hin.
Defined.

Lemma few_records_none_late_witness :
  (List.length (dropna (firstn 2 sample_rows)) <= 1)%nat
  /\ (forall r,
        In r (feature_engineering (dropna (firstn 2 sample_rows))) -> late r = 0%Z)
  /\ ends_with final_caption (after_standardize select_none (firstn 2 sample_rows)).
Proof.
  assert (Hfew : (List.length (dropna (firstn 2 sample_rows)) <= 1)%nat).
  { vm_compute. apply le_n. }
  destruct (few_records_none_late select_none (firstn 2 sample_rows) Hfew)
    as (_ & _ & Hlate & _ & Hends & _).
  split; [exact Hfew|]. split; [exact Hlate | exact Hends].
Defined.

(** The figures of a view with records, for comparison. *)
Example run_on_default_filters :
  let page := snd (run digits_to_numeric select_all (Some sample_file)) in
  In (write "Filtered records: 2 / 3") page
  /\ In (metric "Avg Delivery Time (min)" "15.00") page
  /\ In (metric "Avg Agent Rating" "4.50") page
  /\ In (metric "Late Deliveries (%)" "0.0%") page.
Proof. vm_compute. intuition. Qed.

(** * Further properties of the script *)

(** ** Text and basic cleaning (lines 26-31) *)

Lemma normalize_cell_idempotent (c : cell) :
  normalize_cell (normalize_cell c) = normalize_cell c.
Proof.
  unfold normalize_cell, replace_missing.
  destruct c as [s|]; simpl; [|reflexivity].
  destruct (String.eqb s EmptyString || String.eqb s "nan" || String.eqb s "None")
    eqn:E; simpl; [reflexivity | now rewrite E].
Qed.

Lemma normalize_cell_missing (c : cell) :
  normalize_cell c = None <-> c = None \/ exists s, c = Some s /\ In s missing_texts.
Proof.
  unfold normalize_cell, replace_missing, missing_texts.
  destruct c as [s|]; simpl.
  - destruct (String.eqb s EmptyString) eqn:E1;
      [apply String.eqb_eq in E1|apply String.eqb_neq in E1];
      (destruct (String.eqb s "nan") eqn:E2;
       [apply String.eqb_eq in E2|apply String.eqb_neq in E2]);
      (destruct (String.eqb s "None") eqn:E3;
       [apply String.eqb_eq in E3|apply String.eqb_neq in E3]);
      simpl; split; intros H; try reflexivity; try discriminate;
      try (right; exists s; split; [reflexivity|]; subst; simpl; tauto).
    destruct H as [H|(s' & [= <-] & [H|[H|[H|[]]]])]; congruence.
  - split; auto.
Qed.

Lemma normalize_cell_text (c : cell) (s : string) :
  normalize_cell c = Some s <-> c = Some s /\ ~ In s missing_texts.
Proof.
  split.
  - intros H. destruct c as [t|]; [|discriminate].
    unfold normalize_cell, replace_missing in H. simpl in H.
    destruct (String.eqb t EmptyString || String.eqb t "nan" || String.eqb t "None")
      eqn:E; [discriminate|].
    injection H as ->. split; [reflexivity|].
    intros Hin. assert (Hnone : normalize_cell (Some s) = None).
    { apply normalize_cell_missing. right. now exists s. }
    unfold normalize_cell, replace_missing in Hnone. simpl in Hnone.
    rewrite E in Hnone. discriminate.
  - intros [-> Hnot].
    destruct (normalize_cell (Some s)) as [t|] eqn:E.
    + unfold normalize_cell, replace_missing in E. simpl in E.
      destruct (_ || _) in E; [discriminate | congruence].
    + apply normalize_cell_missing in E.
      destruct E as [E|(s' & [= <-] & Hin)]; [discriminate | contradiction].
Qed.

(** X1.  After the basic cleaning the table has the records it had, each as
    long as it was, and no cell holds one of the texts "", "nan" and "None":
    a cell is missing exactly when it was missing or held one of the three,
    and any other text is kept as it is. *)
Theorem basic_cleaning_cells (df_raw : DataFrame) :
  map (@List.length cell) (data (basic_cleaning df_raw))
  = map (@List.length cell) (data df_raw)
  /\ (forall record c, In record (data (basic_cleaning df_raw)) -> In c record ->
        forall s, c = Some s -> ~ In s missing_texts)
  /\ (forall i j,
        let before := nth j (nth i (data df_raw) []) None in
        let after := nth j (nth i (data (basic_cleaning df_raw)) []) None in
        (after = None
         <-> before = None \/ exists s, before = Some s /\ In s missing_texts)
        /\ (forall s, after = Some s <-> before = Some s /\ ~ In s missing_texts)).
Proof.
  unfold basic_cleaning. simpl. split; [|split].
  - rewrite map_map. apply map_ext. intros record. apply length_map.
  - intros record c Hrecord Hc s ->.
    apply in_map_iff in Hrecord. destruct Hrecord as (raw & <- & _).
    apply in_map_iff in Hc. destruct Hc as (c0 & Hc0 & _).
    now apply normalize_cell_text in Hc0.
  - intros i j.
    assert (Hcell : nth j (nth i (map (map normalize_cell) (data df_raw)) []) None
                    = normalize_cell (nth j (nth i (data df_raw) []) None)).
    { change (@nil cell) with (map normalize_cell []) at 1.
      rewrite map_nth.
      change (@None string) with (normalize_cell None) at 1.
      now rewrite map_nth. }
    cbv zeta. rewrite Hcell. split.
    + apply normalize_cell_missing.
    + intros s. apply normalize_cell_text.
Qed.

(** X2.  The basic cleaning settles: cleaning a cleaned table changes neither
    a header nor a cell. *)
Theorem basic_cleaning_idempotent (df_raw : DataFrame) :
  basic_cleaning (basic_cleaning df_raw) = basic_cleaning df_raw.
Proof.
  unfold basic_cleaning. simpl. f_equal.
  - rewrite map_map. apply map_ext. apply strip_idempotent.
  - rewrite map_map. apply map_ext. intros record.
    rewrite map_map. apply map_ext. apply normalize_cell_idempotent.
Qed.

(** ** Column resolution, further *)

Lemma same_headers_strip (cols : list string) :
  same_headers cols (map Text.strip cols).
Proof.
  unfold same_headers. induction cols as [|c cols IH]; simpl; constructor; auto.
  now rewrite !lower_strip, strip_idempotent.
Qed.

(** X3.  Trimming the headers first (line 26) does not change the column
    that [find_col] gives a field: for each of the eight fields the header
    found among the trimmed headers stands at the place of the header found
    among the headers as read, or neither search finds one. *)
Theorem find_col_after_strip
  (cols : list string) (key : string) (options : list string) :
  In (key, options) variants ->
  exists place,
    backed_at cols (lookup key (find_col variants cols)) place
    /\ backed_at (map Text.strip cols)
                 (lookup key (find_col variants (map Text.strip cols))) place.
Proof.
  intros Hin.
  rewrite !(lookup_find_col key options variants _ variants_keys_nodup Hin).
  apply scan_options_lockstep.
  - apply (variants_spellings_nonempty key options Hin).
  - apply same_headers_strip.
Qed.

Lemma find_col_after_strip_witness :
  exists place,
    backed_at ["Order"; " Weather "]
              (lookup "weather" (find_col variants ["Order"; " Weather "])) place
    /\ backed_at (map Text.strip ["Order"; " Weather "])
                 (lookup "weather"
                    (find_col variants (map Text.strip ["Order"; " Weather "])))
                 place.
Proof.
  apply (find_col_after_strip ["Order"; " Weather "] "weather" ["Weather"; "weather"]).
  simpl. right. left. reflexivity.
Defined.

Lemma resolves_matches (options df_cols : list string) (c : string) :
  resolves options df_cols c ->
  In c df_cols /\ exists o, In o options /\ same_name c o = true.
Proof.
  intros (earlier & o & later & -> & _ & before & after & -> & Hc & _).
  split.
  - apply in_or_app. right. now left.
  - exists o. split; [|exact Hc]. apply in_or_app. right. now left.
Qed.

Lemma normalised_spellings_In (key o : string) (options : list string) :
  In (key, options) variants -> In o options ->
  In (key, Text.strip (Text.lower o)) normalised_spellings.
Proof.
  intros Hkey Ho. unfold normalised_spellings. apply in_flat_map.
  exists (key, options). split; [exact Hkey|]. simpl.
  apply in_map_iff. now exists o.
Qed.

Lemma spellings_apart_variants : spellings_apart normalised_spellings = true.
Proof. vm_compute. reflexivity. Qed.

Lemma spellings_apart_spec (table : list (string * string)) (k1 k2 n : string) :
  spellings_apart table = true ->
  In (k1, n) table -> In (k2, n) table -> k1 = k2.
Proof.
  unfold spellings_apart. intros H H1 H2.
  rewrite forallb_forall in H. specialize (H _ H1).
  rewrite forallb_forall in H. specialize (H _ H2).
  simpl in H. rewrite String.eqb_refl in H. simpl in H.
  now apply String.eqb_eq.
Qed.

(** X4.  The header [find_col] gives a field is one of the headers of the
    table and equals, after lowercasing and trimming, one of the spellings
    of that field; and no header is given to two fields: two different
    fields that are both resolved are backed by different headers. *)
Theorem find_col_headers_apart
  (df_cols : list string) (key1 key2 : string) (options1 options2 : list string)
  (c1 c2 : string) :
  In (key1, options1) variants ->
  In (key2, options2) variants ->
  lookup key1 (find_col variants df_cols) = Some c1 ->
  lookup key2 (find_col variants df_cols) = Some c2 ->
  (In c1 df_cols /\ exists o, In o options1 /\ same_name c1 o = true)
  /\ (key1 <> key2 -> c1 <> c2).
Proof.
  intros Hk1 Hk2 H1 H2.
  rewrite (lookup_find_col key1 options1 variants _ variants_keys_nodup Hk1) in H1.
  rewrite (lookup_find_col key2 options2 variants _ variants_keys_nodup Hk2) in H2.
  apply scan_options_some in H1;
    [|exact (variants_spellings_nonempty key1 options1 Hk1)].
  apply scan_options_some in H2;
    [|exact (variants_spellings_nonempty key2 options2 Hk2)].
  apply resolves_matches in H1, H2.
  destruct H1 as (Hin1 & o1 & Ho1 & Hs1), H2 as (_ & o2 & Ho2 & Hs2).
  split; [split; [exact Hin1 | now exists o1]|].
  intros Hkeys Hc. subst c2. apply Hkeys.
  unfold same_name in Hs1, Hs2. apply String.eqb_eq in Hs1, Hs2.
  apply (spellings_apart_spec normalised_spellings key1 key2
           (Text.strip (Text.lower c1)) spellings_apart_variants).
  - rewrite Hs1. now apply (normalised_spellings_In key1 o1 options1).
  - rewrite Hs2. now apply (normalised_spellings_In key2 o2 options2).
Qed.

Lemma find_col_headers_apart_witness :
  lookup "agent_age" (find_col variants ["Rating"; "Age"; "Order"]) = Some "Age"
  /\ lookup "agent_rating" (find_col variants ["Rating"; "Age"; "Order"]) = Some "Rating"
  /\ "Age" <> "Rating".
Proof.
  split; [reflexivity|]. split; [reflexivity|].
  refine (proj2 (find_col_headers_apart ["Rating"; "Age"; "Order"]
                   "agent_age" "agent_rating"
                   ["Agent_Age"; "Agent Age"; "Age"]
                   ["Agent_Rating"; "Agent Rating"; "Rating"]
                   "Age" "Rating" _ _ eq_refl eq_refl) _).
  - simpl. do 4 right. left. reflexivity.
  - simpl. do 5 right. left. reflexivity.
  - discriminate.
Defined.

(** ** The cleaner, further (lines 68-83) *)

Lemma combine_seq_In {A} (l : list A) (start i : nat) (x : A) :
  In (i, x) (combine (seq start (List.length l)) l)
  <-> (start <= i)%nat /\ nth_error l (i - start) = Some x.
Proof.
  revert start. induction l as [|y rest IH]; intros start; simpl.
  - split; [intros []|]. intros [_ H]. now destruct (i - start)%nat.
  - rewrite IH. split.
    + intros [[= <- <-]|[Hle Hnth]].
      * split; [lia|]. now rewrite Nat.sub_diag.
      * split; [lia|].
        replace (i - start)%nat with (S (i - S start)) by lia. exact Hnth.
    + intros [Hle Hnth]. destruct (Nat.eq_dec start i) as [->|Hne].
      * left. rewrite Nat.sub_diag in Hnth. simpl in Hnth. congruence.
      * right. split; [lia|].
        replace (i - start)%nat with (S (i - S start)) in Hnth by lia. exact Hnth.
Qed.

Lemma sorted_labels {A B} (label : B -> nat) (f : nat -> A -> B)
  (keep : B -> bool) (l : list A) (start : nat) :
  (forall i x, label (f i x) = i) ->
  StronglySorted lt
    (map label (filter keep (map (fun ix => f (fst ix) (snd ix))
                                 (combine (seq start (List.length l)) l))))
  /\ Forall (fun i => (start <= i)%nat)
       (map label (filter keep (map (fun ix => f (fst ix) (snd ix))
                                    (combine (seq start (List.length l)) l)))).
Proof.
  intros Hlabel. revert start.
  induction l as [|x rest IH]; intros start; simpl.
  - split; constructor.
  - destruct (IH (S start)) as [Hsorted Hfrom].
    assert (Hfrom' : Forall (fun i => (start <= i)%nat)
                       (map label (filter keep
                          (map (fun ix => f (fst ix) (snd ix))
                               (combine (seq (S start) (List.length rest)) rest))))).
    { eapply Forall_impl; [|exact Hfrom]. simpl. intros; lia. }
    destruct (keep (f start x)); simpl.
    + rewrite Hlabel. split.
      * constructor; [exact Hsorted|].
        eapply Forall_impl; [|exact Hfrom]. simpl. intros; lia.
      * constructor; [lia | exact Hfrom'].
    + split; assumption.
Qed.

Section CleanerRows.

Variable to_numeric : string -> float.

Lemma timed_record_built (df : DataFrame)
  (col_map : list (string * option string)) (r : Row) :
  In r (dropna (standardize_rows to_numeric df col_map)) ->
  exists i record, r = standardize_row to_numeric (columns df) col_map i record.
Proof.
  unfold dropna, standardize_rows. intros H.
  apply filter_In in H. destruct H as [H _].
  apply in_map_iff in H. destruct H as ([i record] & <- & _).
  now exists i, record.
Qed.

(** X5.  Whatever column the mapping gives each of the eight fields, the
    table after the drop of line 82 is the records of the file whose
    delivery time reads as a number, in the order of the file: a record of
    the table is built from the file record of its row label, a file record
    is kept exactly when its time cell reads as a number (whatever its other
    cells hold), and the row labels go up strictly. *)
Theorem cleaned_rows_are_the_timed_rows (df : DataFrame)
  (col_map : list (string * option string)) :
  mapping_of_fields col_map ->
  let work := dropna (standardize_rows to_numeric df col_map) in
  let time_of := fun record =>
    to_numeric_cell to_numeric (source_cell (columns df) col_map "delivery_time" record) in
  (forall r,
     In r work
     <-> exists record,
           nth_error (data df) (index r) = Some record
           /\ r = standardize_row to_numeric (columns df) col_map (index r) record
           /\ time_of record <> None)
  /\ (forall i record,
        nth_error (data df) i = Some record ->
        (In (standardize_row to_numeric (columns df) col_map i record) work
         <-> time_of record <> None))
  /\ StronglySorted lt (map index work).
Proof.
  intros _ work time_of.
  assert (Hin : forall r,
             In r work
             <-> exists record,
                   nth_error (data df) (index r) = Some record
                   /\ r = standardize_row to_numeric (columns df) col_map (index r) record
                   /\ time_of record <> None).
  { intros r. unfold work, dropna, standardize_rows.
    rewrite filter_In, in_map_iff. split.
    - intros [([i record] & <- & Hpair) Hkeep]. simpl in *.
      apply combine_seq_In in Hpair. destruct Hpair as [_ Hnth].
      rewrite Nat.sub_0_r in Hnth.
      exists record. repeat split; auto.
      unfold time_of. intros Hnone. now rewrite Hnone in Hkeep.
    - intros (record & Hnth & -> & Htime). simpl. split.
      + exists (index r, record). split; [reflexivity|].
        apply combine_seq_In. split; [lia|]. now rewrite Nat.sub_0_r.
      + unfold time_of in Htime.
        now destruct (to_numeric_cell to_numeric _). }
  split; [exact Hin|]. split.
  - intros i record Hnth. rewrite Hin. split.
    + intros (record' & Hnth' & _ & Htime).
      cbn [index standardize_row] in Hnth'.
      rewrite Hnth in Hnth'. injection Hnth' as <-. exact Htime.
    + intros Htime. exists record.
      split; [exact Hnth|]. split; [reflexivity | exact Htime].
  - unfold work, dropna, standardize_rows.
    apply (sorted_labels index
             (fun i record => standardize_row to_numeric (columns df) col_map i record)).
    reflexivity.
Qed.

End CleanerRows.

Lemma cleaned_rows_are_the_timed_rows_witness :
  mapping_of_fields (find_col variants (columns (basic_cleaning sample_file)))
  /\ nth_error (data (basic_cleaning sample_file)) 2
     = Some [Some "3"; Some "Sunny"; Some "High"; Some "Bike"; Some "soon";
             Some "41"; Some "3"; Some "Rural"; Some "Food"]
  /\ ~ In (standardize_row digits_to_numeric
             (columns (basic_cleaning sample_file))
             (find_col variants (columns (basic_cleaning sample_file))) 2
             [Some "3"; Some "Sunny"; Some "High"; Some "Bike"; Some "soon";
              Some "41"; Some "3"; Some "Rural"; Some "Food"])
          (cleaned digits_to_numeric sample_file).
Proof.
  split; [apply find_col_fields|]. split; [reflexivity|].
  destruct (cleaned_rows_are_the_timed_rows digits_to_numeric
              (basic_cleaning sample_file)
              (find_col variants (columns (basic_cleaning sample_file)))
              (find_col_fields _))
    as (_ & Hkeep & _).
  destruct (Hkeep 2%nat
              [Some "3"; Some "Sunny"; Some "High"; Some "Bike"; Some "soon";
               Some "41"; Some "3"; Some "Rural"; Some "Food"] eq_refl)
    as [Hkept _].
  intros Hin. apply (Hkept Hin). reflexivity.
Defined.

(** ** A field without a column (lines 69-74, 98-117) *)

Lemma source_cell_unresolved (cols : list string)
  (col_map : list (string * option string)) (key : string) (record : list cell) :
  truthy (lookup key col_map) = false -> source_cell cols col_map key record = None.
Proof.
  unfold source_cell, truthy. destruct (lookup key col_map) as [src|]; [|reflexivity].
  now intros ->.
Qed.

Lemma filter_values_all_missing (col : list cell) :
  (forall c, In c col -> c = None) -> filter_values col = [].
Proof.
  intros H. unfold filter_values.
  assert (Hdrop : dropna_cells col = []).
  { induction col as [|c rest IH]; [reflexivity|].
    rewrite (H c (or_introl eq_refl)). simpl. apply IH.
    intros; apply H; now right. }
  now rewrite Hdrop.
Qed.

(** X6.  When the mapping gives one of the five categorical fields no
    column, the field is missing in every record of the table; its filter
    has no option, so [make_filter] shows no widget and returns the empty
    selection; and the filtered view is empty whatever the user selects in
    the other filters. *)
Theorem absent_column_empties_view
  (to_numeric : string -> float) (df : DataFrame)
  (col_map : list (string * option string))
  (key : string) (field : Row -> cell) :
  mapping_of_fields col_map ->
  In (key, field) categorical ->
  truthy (lookup key col_map) = false ->
  let work := feature_engineering (dropna (standardize_rows to_numeric df col_map)) in
  (forall r, In r work -> field (base r) = None)
  /\ (forall multiselect page,
        make_filter multiselect work key field page = (Done [], page))
  /\ (forall sel, filtered sel work = []).
Proof.
  intros _ Hfield Habsent work.
  assert (Hmissing : forall r, In r work -> field (base r) = None).
  { intros r Hr. apply feature_engineering_in in Hr. destruct Hr as (Hbase & _).
    apply timed_record_built in Hbase. destruct Hbase as (i & record & ->).
    unfold categorical in Hfield. simpl in Hfield.
    destruct Hfield as [H|[H|[H|[H|[H|[]]]]]]; injection H as <- <-;
      simpl; now apply source_cell_unresolved. }
  split; [exact Hmissing|]. split.
  - intros multiselect page. unfold make_filter.
    rewrite filter_values_all_missing; [reflexivity|].
    intros c Hc. apply in_map_iff in Hc. destruct Hc as (r & <- & Hr).
    now apply Hmissing.
  - intros sel. unfold filtered. apply filter_none. intros r Hr.
    specialize (Hmissing r Hr). unfold passes.
    unfold categorical in Hfield. simpl in Hfield.
    destruct Hfield as [H|[H|[H|[H|[H|[]]]]]]; injection H as <- <-;
      rewrite Hmissing; simpl; rewrite ?andb_false_r; reflexivity.
Qed.

Lemma absent_column_empties_view_witness :
  truthy (lookup "traffic"
            (find_col variants (columns (basic_cleaning sample_file_one)))) = false
  /\ filtered (default_selections
                 (feature_engineering (cleaned digits_to_numeric sample_file_one)))
              (feature_engineering (cleaned digits_to_numeric sample_file_one))
     = [].
Proof.
  split; [reflexivity|].
  apply (absent_column_empties_view digits_to_numeric
           (basic_cleaning sample_file_one)
           (find_col variants (columns (basic_cleaning sample_file_one)))
           "traffic" traffic).
  - apply find_col_fields.
  - simpl. right. left. reflexivity.
  - reflexivity.
Defined.

(** ** The options of a filter (lines 98-103) *)

Lemma insert_sorted_perm (x : string) (l : list string) :
  Permutation (insert_sorted x l) (x :: l).
Proof.
  induction l as [|y rest IH]; simpl; [reflexivity|].
  destruct (String.leb x y); [reflexivity|].
  rewrite IH. apply perm_swap.
Qed.

Lemma sorted_perm (l : list string) : Permutation (sorted l) l.
Proof.
  unfold sorted. induction l as [|x rest IH]; simpl; [reflexivity|].
  rewrite insert_sorted_perm. now constructor.
Qed.

Lemma insert_sorted_head (x y : string) (l : list string) :
  HdRel (fun a b => String.leb a b = true) y l ->
  String.leb y x = true ->
  HdRel (fun a b => String.leb a b = true) y (insert_sorted x l).
Proof.
  intros Hhd Hyx. destruct l as [|z rest]; simpl.
  - now constructor.
  - destruct (String.leb x z); constructor; [exact Hyx|].
    now inversion Hhd.
Qed.

Lemma insert_sorted_ascending (x : string) (l : list string) :
  ascending l -> ascending (insert_sorted x l).
Proof.
  unfold ascending. induction l as [|y rest IH]; simpl; intros Hl.
  - repeat constructor.
  - destruct (String.leb x y) eqn:E.
    + constructor; [exact Hl | now constructor].
    + inversion Hl as [|? ? Hrest Hhd]; subst.
      constructor; [now apply IH|].
      apply insert_sorted_head; [exact Hhd|].
      destruct (String.leb_total x y) as [H|H]; congruence.
Qed.

Lemma sorted_ascending (l : list string) : ascending (sorted l).
Proof.
  unfold sorted. induction l as [|x rest IH]; simpl.
  - constructor.
  - now apply insert_sorted_ascending.
Qed.

Lemma unique_NoDup (l : list string) : NoDup (unique l).
Proof.
  induction l as [|x rest IH]; simpl; constructor.
  - intros Hin. apply filter_In in Hin. destruct Hin as [_ Hne].
    now rewrite String.eqb_refl in Hne.
  - now apply NoDup_filter.
Qed.

(** X7.  The options [make_filter] offers for a field are the values the
    field holds in the table, each once, in ascending order; with at least
    one option it shows one multiselect, labelled with the capitalised name
    and with every option preselected, and returns what the user holds;
    with none it shows nothing and returns the empty selection. *)
Theorem make_filter_options
  (multiselect : string -> list string -> list string)
  (work : list Derived) (col : string) (field : Row -> cell) (page : list event) :
  let vals := filter_values (map (fun r => field (base r)) work) in
  ascending vals
  /\ NoDup vals
  /\ (forall s, In s vals <-> exists r, In r work /\ field (base r) = Some s)
  /\ (vals <> [] ->
      make_filter multiselect work col field page
      = (Done (multiselect (Text.capitalize col) vals),
         page ++ [sidebar_multiselect (Text.capitalize col) vals vals]))
  /\ (vals = [] -> make_filter multiselect work col field page = (Done [], page)).
Proof.
  intros vals. split; [apply sorted_ascending|]. split; [|split; [|split]].
  - unfold vals, filter_values.
    apply (Permutation_NoDup (Permutation_sym (sorted_perm _))), unique_NoDup.
  - intros s. unfold vals. rewrite filter_values_In, in_map_iff.
    split; intros (r & H1 & H2); exists r; auto.
  - intros Hsome. unfold make_filter. fold vals.
    destruct vals; [congruence | reflexivity].
  - intros Hnone. unfold make_filter. fold vals. now rewrite Hnone.
Qed.

Lemma make_filter_options_witness :
  make_filter select_all sample_work "weather" weather []
  = (Done ["Rainy"; "Sunny"],
     [sidebar_multiselect "Weather" ["Rainy"; "Sunny"] ["Rainy"; "Sunny"]]).
Proof.
  refine (proj1 (proj2 (proj2 (proj2
            (make_filter_options select_all sample_work "weather" weather []))))
          _).
  vm_compute. discriminate.
Defined.

(** ** Narrowing a selection (lines 111-117) *)

Lemma member_incl (v : cell) (sel1 sel2 : list string) :
  incl sel1 sel2 -> member v sel1 -> member v sel2.
Proof. intros Hincl (s & Hv & Hs). exists s. auto. Qed.

Lemma passes_included (sel1 sel2 : Selections) (r : Derived) :
  included sel1 sel2 -> passes sel1 r = true -> passes sel2 r = true.
Proof.
  intros (H1 & H2 & H3 & H4 & H5). rewrite !passes_members.
  intros (M1 & M2 & M3 & M4 & M5).
  repeat split; eapply member_incl; eassumption.
Qed.

Lemma filter_length_mono {A} (f g : A -> bool) (l : list A) :
  (forall x, f x = true -> g x = true) ->
  (List.length (filter f l) <= List.length (filter g l))%nat.
Proof.
  intros Hfg. induction l as [|x rest IH]; simpl; [lia|].
  destruct (f x) eqn:Ef.
  - rewrite (Hfg x Ef). simpl. lia.
  - destruct (g x); simpl; lia.
Qed.

Lemma filter_filter_narrow {A} (f g : A -> bool) (l : list A) :
  (forall x, f x = true -> g x = true) -> filter f (filter g l) = filter f l.
Proof.
  intros Hfg. induction l as [|x rest IH]; simpl; [reflexivity|].
  destruct (g x) eqn:Eg; simpl.
  - now rewrite IH.
  - destruct (f x) eqn:Ef; [|exact IH].
    rewrite (Hfg x Ef) in Eg. discriminate.
Qed.

(** X8.  Narrowing the selections can only take records out of the view:
    when each of the five selections is included in the one it had been,
    every record of the new view was in the old one, the new view is no
    longer than the old, and filtering the old view with the new selections
    gives the new view. *)
Theorem narrowing_selection (work : list Derived) (sel1 sel2 : Selections) :
  included sel1 sel2 ->
  (forall r, In r (filtered sel1 work) -> In r (filtered sel2 work))
  /\ (List.length (filtered sel1 work) <= List.length (filtered sel2 work))%nat
  /\ filtered sel1 (filtered sel2 work) = filtered sel1 work.
Proof.
  intros Hincl. unfold filtered. split; [|split].
  - intros r Hr. apply filter_In in Hr. apply filter_In.
    split; [tauto|]. apply (passes_included sel1 sel2); tauto.
  - apply filter_length_mono. intros r. now apply passes_included.
  - apply filter_filter_narrow. intros r. now apply passes_included.
Qed.

Lemma narrowing_selection_witness :
  included sample_sel_sunny (default_selections sample_work)
  /\ filtered sample_sel_sunny (filtered (default_selections sample_work) sample_work)
     = filtered sample_sel_sunny sample_work.
Proof.
  assert (Hincl : included sample_sel_sunny (default_selections sample_work)).
  { vm_compute. repeat split; intros a Ha; simpl in Ha; intuition. }
  split; [exact Hincl|].
  apply (narrowing_selection sample_work sample_sel_sunny
           (default_selections sample_work) Hincl).
Defined.

(** ** The late flag, further (lines 91-93) *)

Lemma late_one_exceeds (work : list Row) (r : Derived) :
  In r (feature_engineering work) -> late r <> 0%Z ->
  exists x m v,
    delivery_time (base r) = Some x
    /\ mean (map delivery_time work) = Some m
    /\ var (map delivery_time work) = Some v
    /\ (m < x)%Q /\ (v < (x - m) * (x - m))%Q.
Proof.
  intros Hin Hlate. apply feature_engineering_in in Hin.
  destruct Hin as (_ & Hval & _). rewrite Hval in Hlate.
  destruct (delivery_time (base r)) as [x|];
    destruct (mean (map delivery_time work)) as [m|];
    destruct (var (map delivery_time work)) as [v|];
    simpl in Hlate; try congruence.
  destruct (Qlt_bool m x) eqn:E1; destruct (Qlt_bool v ((x - m) * (x - m))) eqn:E2;
    simpl in Hlate; try congruence.
  apply Qlt_bool_iff in E1, E2. now exists x, m, v.
Qed.

(** X9.  The late flag goes with the delivery time: a late record is above
    the mean of the table, and every record of the table that took at least
    as long as a late one is late too. *)
Theorem late_is_monotone (work : list Row) (r1 r2 : Derived) (x1 x2 : Q) :
  In r1 (feature_engineering work) ->
  In r2 (feature_engineering work) ->
  delivery_time (base r1) = Some x1 ->
  delivery_time (base r2) = Some x2 ->
  (x1 <= x2)%Q ->
  late r1 = 1%Z ->
  late r2 = 1%Z
  /\ exists m, mean (map delivery_time work) = Some m /\ (m < x1)%Q.
Proof.
  intros H1 H2 Hx1 Hx2 Hle Hlate.
  destruct (late_one_exceeds work r1 H1) as (x & m & v & Ex & Em & Ev & Hm & Hv).
  { rewrite Hlate. discriminate. }
  rewrite Hx1 in Ex. injection Ex as <-.
  split; [|now exists m].
  apply feature_engineering_in in H2. destruct H2 as (_ & -> & _).
  rewrite Hx2, Em, Ev. simpl.
  assert (E1 : Qlt_bool m x2 = true) by (apply Qlt_bool_iff; lra).
  assert (E2 : Qlt_bool v ((x2 - m) * (x2 - m)) = true).
  { apply Qlt_bool_iff. nra. }
  now rewrite E1, E2.
Qed.

Lemma late_is_monotone_witness :
  In sample_record_slow (feature_engineering sample_rows_two_late)
  /\ In sample_record_slower (feature_engineering sample_rows_two_late)
  /\ late sample_record_slower = 1%Z
  /\ exists m,
       mean (map delivery_time sample_rows_two_late) = Some m /\ (m < 10)%Q.
Proof.
  assert (H1 : In sample_record_slow (feature_engineering sample_rows_two_late)).
  { vm_compute. do 8 right. left. reflexivity. }
  assert (H2 : In sample_record_slower (feature_engineering sample_rows_two_late)).
  { vm_compute. do 9 right. left. reflexivity. }
  assert (Hle : (10 <= 11)%Q) by (unfold Qle; simpl; lia).
  split; [exact H1|]. split; [exact H2|].
  exact (late_is_monotone sample_rows_two_late
           sample_record_slow sample_record_slower 10 11
           H1 H2 eq_refl eq_refl Hle eq_refl).
Defined.







(** ** The figures (lines 122-125) *)

Lemma dropna_floats_some {A} (f : A -> Q) (l : list A) :
  dropna_floats (map (fun a => Some (f a)) l) = map f l.
Proof. induction l as [|a rest IH]; simpl; [reflexivity | now rewrite IH]. Qed.

Lemma count_map {A} (f : A -> Q) (l : list A) :
  count (map f l) = inject_Z (Z.of_nat (List.length l)).
Proof. unfold count. now rewrite length_map. Qed.

Lemma late_sum (view : list Derived) :
  (forall r, In r view -> late r = 1%Z \/ late r = 0%Z) ->
  (Qsum (map (fun r => inject_Z (late r)) view)
   == inject_Z (Z.of_nat (late_count view)))%Q.
Proof.
  unfold late_count. induction view as [|r rest IH]; intros H.
  - reflexivity.
  - change (Qsum (map (fun r => inject_Z (late r)) (r :: rest)))
      with (inject_Z (late r) + Qsum (map (fun r => inject_Z (late r)) rest))%Q.
    rewrite IH by (intros; apply H; now right).
    change (filter (fun r => Z.eqb (late r) 1) (r :: rest))
      with (if Z.eqb (late r) 1
            then r :: filter (fun r => Z.eqb (late r) 1) rest
            else filter (fun r => Z.eqb (late r) 1) rest).
    destruct (H r (or_introl eq_refl)) as [E|E]; rewrite E.
    + change (Z.eqb 1 1) with true. cbv iota.
      change (List.length (r :: filter (fun r => Z.eqb (late r) 1) rest))
        with (S (List.length (filter (fun r => Z.eqb (late r) 1) rest))).
      rewrite Nat2Z.inj_succ, <- Z.add_1_l, inject_Z_plus. reflexivity.
    + change (Z.eqb 0 1) with false. cbv iota.
      change (inject_Z 0) with 0%Q. lra.
Qed.

Lemma late_count_le (view : list Derived) :
  (late_count view <= List.length view)%nat.
Proof. apply filter_length_le. Qed.

Lemma filtered_flags (work : list Row) (sel : Selections) (r : Derived) :
  In r (filtered sel (feature_engineering work)) -> late r = 1%Z \/ late r = 0%Z.
Proof.
  unfold filtered. intros H. apply filter_In in H. destruct H as [H _].
  apply feature_engineering_in in H. destruct H as (_ & -> & _).
  destruct (exceeds _ _ _); simpl; auto.
Qed.

Lemma late_share (view : list Derived) :
  view <> [] ->
  (forall r, In r view -> late r = 1%Z \/ late r = 0%Z) ->
  exists p,
    fmul (mean (map (fun r => Some (inject_Z (late r))) view)) 100 = Some p
    /\ (p == 100 * inject_Z (Z.of_nat (late_count view))
                 / inject_Z (Z.of_nat (List.length view)))%Q
    /\ (0 <= p <= 100)%Q.
Proof.
  intros Hne Hflags.
  pose proof (late_sum view Hflags) as Hsum.
  pose proof (late_count_le view) as Hle.
  assert (Hn : (0 < inject_Z (Z.of_nat (List.length view)))%Q).
  { change 0%Q with (inject_Z 0). rewrite <- Zlt_Qlt.
    destruct view; [congruence | simpl; lia]. }
  unfold mean. rewrite (dropna_floats_some (fun r => inject_Z (late r)) view).
  destruct (map (fun r => inject_Z (late r)) view) as [|q l] eqn:Emap.
  { apply map_eq_nil in Emap. congruence. }
  cbv iota beta. simpl fmul. rewrite <- Emap.
  eexists. split; [reflexivity|].
  rewrite count_map, Hsum.
  assert (Hk0 : (0 <= inject_Z (Z.of_nat (late_count view)))%Q).
  { change 0%Q with (inject_Z 0). rewrite <- Zle_Qle. lia. }
  assert (Hkn : (inject_Z (Z.of_nat (late_count view))
                 <= inject_Z (Z.of_nat (List.length view)))%Q).
  { rewrite <- Zle_Qle. lia. }
  revert Hn Hk0 Hkn.
  generalize (inject_Z (Z.of_nat (late_count view)))
             (inject_Z (Z.of_nat (List.length view))).
  intros k n Hn Hk0 Hkn.
  assert (Hshare0 : (0 <= k / n)%Q) by (apply Qle_shift_div_l; lra).
  assert (Hshare1 : (k / n <= 1)%Q) by (apply Qle_shift_div_r; lra).
  split; [|split].
  - field. lra.
  - lra.
  - lra.
Qed.

(** X11.  For a view with records, the late percentage handed to the number
    format is a number, not NaN: a hundred times the share of the late
    records among the records of the view, and so a value from 0 to 100. *)
Theorem late_percentage (work : list Row) (sel : Selections) :
  let view := filtered sel (feature_engineering work) in
  view <> [] ->
  exists p,
    fmul (mean (map (fun r => Some (inject_Z (late r))) view)) 100 = Some p
    /\ (p == 100 * inject_Z (Z.of_nat (late_count view))
                 / inject_Z (Z.of_nat (List.length view)))%Q
    /\ (0 <= p <= 100)%Q.
Proof.
  intros view Hne. apply late_share; [exact Hne|].
  intros r. apply filtered_flags.
Qed.

Lemma late_percentage_witness :
  exists p,
    fmul (mean (map (fun r => Some (inject_Z (late r)))
                    (filtered (default_selections sample_work) sample_work)))
         100 = Some p
    /\ (0 <= p <= 100)%Q.
Proof.
  destruct (late_percentage (cleaned digits_to_numeric sample_file)
              (default_selections sample_work)) as (p & Hp & _ & Hrange).
  - vm_compute. discriminate.
  - exists p. split; [exact Hp | exact Hrange].
Defined.

(** ** Charts and notices (lines 129-170) *)

Lemma in_group (key : Row -> cell) (k : string) (view : list Derived) (r : Derived) :
  In r (filter (fun r => isin (key (base r)) [k]) view)
  <-> In r view /\ key (base r) = Some k.
Proof.
  rewrite filter_In. destruct (key (base r)) as [s|]; simpl.
  - rewrite orb_false_r. split; intros [H1 H2]; split; auto.
    + apply String.eqb_eq in H2. now subst.
    + injection H2 as ->. apply String.eqb_refl.
  - split; intros [_ H]; discriminate.
Qed.

Lemma groupby_mean_keys (key : Row -> cell) (view : list Derived) :
  map fst (groupby_mean key view) = filter_values (map (fun r => key (base r)) view).
Proof.
  unfold groupby_mean. rewrite map_map. simpl. apply map_id.
Qed.

(** X12.  The bars of a chart are the groups of the view: one bar for each
    value the field holds in the view, the values ascending and each once;
    and the height of a bar is the mean delivery time of the records of the
    view with that value. *)
Theorem groupby_mean_groups (key : Row -> cell) (view : list Derived) :
  let keys := map fst (groupby_mean key view) in
  ascending keys
  /\ NoDup keys
  /\ (forall k, In k keys <-> exists r, In r view /\ key (base r) = Some k)
  /\ (forall k m,
        In (k, m) (groupby_mean key view)
        <-> In k keys
            /\ m = mean (map (fun r => delivery_time (base r))
                             (filter (fun r => isin (key (base r)) [k]) view))).
Proof.
  intros keys.
  assert (Hkeys : keys = filter_values (map (fun r => key (base r)) view))
    by apply groupby_mean_keys.
  assert (Hmem : forall k, In k keys <-> exists r, In r view /\ key (base r) = Some k).
  { intros k. rewrite Hkeys, filter_values_In, in_map_iff.
    split; intros (r & H1 & H2); exists r; auto. }
  assert (Hpair : forall k m,
             In (k, m) (groupby_mean key view)
             <-> In k keys
                 /\ m = mean (map (fun r => delivery_time (base r))
                                  (filter (fun r => isin (key (base r)) [k]) view))).
  { intros k m. rewrite Hkeys. unfold groupby_mean. rewrite in_map_iff. split.
    - intros (k' & [= <- <-] & Hk). auto.
    - intros [Hk ->]. now exists k. }
  split; [rewrite Hkeys; apply sorted_ascending|].
  split; [rewrite Hkeys; unfold filter_values;
          apply (Permutation_NoDup (Permutation_sym (sorted_perm _))), unique_NoDup|].
  split; [exact Hmem | exact Hpair].
Qed.

Lemma groupby_mean_some (key : Row -> cell) (view : list Derived) (r : Derived) :
  In r view -> key (base r) <> None -> groupby_mean key view <> [].
Proof.
  intros Hr Hkey Hnil.
  destruct (key (base r)) as [k|] eqn:E; [|congruence].
  assert (Hin : In k (map fst (groupby_mean key view))).
  { rewrite groupby_mean_keys, filter_values_In. apply in_map_iff. now exists r. }
  now rewrite Hnil in Hin.
Qed.

Lemma bar_event_chart (df : list (string * float)) (x y t : string) :
  df <> [] -> is_chart (bar_event df x y t) = true /\ is_notice (bar_event df x y t) = false.
Proof. destruct df; [congruence | now split]. Qed.

(** X13.  Charts and notices go by the view.  For an empty filtered view
    every one of the six charts (four bar charts, the scatter plot and the
    box plot) is replaced by a notice and no chart is drawn; for a filtered
    view with a record all six are drawn and no notice is shown. *)
Theorem charts_or_notices (work : list Derived) (sel : Selections) (page : list event) :
  let view := filtered sel work in
  let shown := present_events work view in
  present work view page = (Done tt, page ++ shown)
  /\ (view = [] ->
      filter is_chart shown = [] /\ List.length (filter is_notice shown) = 6%nat)
  /\ (view <> [] ->
      filter is_notice shown = [] /\ List.length (filter is_chart shown) = 6%nat).
Proof.
  intros view shown. split; [apply present_shows|]. split.
  - intros Hempty. unfold shown. rewrite Hempty. split; reflexivity.
  - intros Hsome. unfold shown.
    destruct view as [|r0 rest] eqn:Eview; [congruence|].
    assert (Hr0 : In r0 (filtered sel work)).
    { fold view. rewrite Eview. now left. }
    unfold filtered in Hr0. apply filter_In in Hr0. destruct Hr0 as [_ Hpass].
    apply passes_members in Hpass. destruct Hpass as (M1 & M2 & M3 & M4 & M5).
    apply member_not_missing in M1, M2, M3, M4.
    assert (Hin : In r0 (r0 :: rest)) by now left.
    destruct (bar_event_chart (groupby_mean weather (r0 :: rest))
                "weather" "delivery_time" "Avg Delivery Time by Weather"
                (groupby_mean_some weather _ r0 Hin M1)) as [C1 N1].
    destruct (bar_event_chart (groupby_mean traffic (r0 :: rest))
                "traffic" "delivery_time" "Avg Delivery Time by Traffic"
                (groupby_mean_some traffic _ r0 Hin M2)) as [C2 N2].
    destruct (bar_event_chart (groupby_mean vehicle (r0 :: rest))
                "vehicle" "delivery_time" "Avg Delivery Time by Vehicle"
                (groupby_mean_some vehicle _ r0 Hin M3)) as [C3 N3].
    destruct (bar_event_chart (groupby_mean area (r0 :: rest))
                "area" "delivery_time" "Avg Delivery Time by Area"
                (groupby_mean_some area _ r0 Hin M4)) as [C4 N4].
    unfold present_events. cbn [filter is_chart is_notice scatter_event box_event final_caption].
    rewrite C1, C2, C3, C4, N1, N2, N3, N4. split; reflexivity.
Qed.

Lemma charts_or_notices_witness :
  filter is_chart
    (present_events sample_work (filtered sample_sel_no_vehicle sample_work)) = []
  /\ filter is_notice
       (present_events sample_work (filtered sample_sel_sunny sample_work)) = [].
Proof.
  split.
  - apply (charts_or_notices sample_work sample_sel_no_vehicle []). reflexivity.
  - apply (charts_or_notices sample_work sample_sel_sunny []).
    vm_compute. discriminate.
Defined.

(** ** Labels carried by two columns (lines 69-74) *)




(** ** A table without a timed record (lines 80-174) *)

(** X18.  When no record of the table has a delivery time that reads as a
    number, the script still runs to its end: the data summary gives the
    count of the records before the drop and 0 after it, no filter widget
    is shown, the count line reads 0 / 0, the three figures read "nan" and
    every chart gives way to its notice. *)
Theorem runs_on_empty_tables
  (multiselect : string -> list string -> list string)
  (work : list Row) (page : list event) :
  dropna work = [] ->
  after_standardize multiselect work page
  = (Done tt,
     page
     ++ [ sidebar_markdown "### 📊 Data Summary";
          sidebar_write ("Rows before cleaning: " ++ str_nat (List.length work))%string;
          sidebar_write "Rows after cleaning: 0";
          sidebar_dataframe [];
          sidebar_header "🔍 Filters";
          write "Filtered records: 0 / 0";
          metric "Avg Delivery Time (min)" "nan";
          metric "Avg Agent Rating" "nan";
          metric "Late Deliveries (%)" "nan%";
          markdown "---";
          subheader "🌦️ Average Delivery Time by Weather";
          info "No data available for Avg Delivery Time by Weather.";
          subheader "🚦 Average Delivery Time by Traffic";
          info "No data available for Avg Delivery Time by Traffic.";
          subheader "🚗 Vehicle Performance";
          info "No data available for Avg Delivery Time by Vehicle.";
          subheader "👤 Agent Performance – Rating vs Delivery Time";
          info "No data for Agent Rating vs Delivery Time.";
          subheader "📍 Area-Wise Average Delivery Time";
          info "No data available for Avg Delivery Time by Area.";
          subheader "📦 Category Distribution – Delivery Time";
          info "No data for selected filters.";
          markdown "---";
          caption "💡 Tip: Use the sidebar filters to explore how traffic, weather, or vehicle type affect delivery time.";
          final_caption ]).
Proof.
  intros Hempty.
  destruct (after_standardize_page multiselect work page)
    as (sel & widgets & Hrun & _ & _ & Hnone).
  rewrite Hempty in *. cbn [feature_engineering map] in *.
  rewrite (Hnone eq_refl) in Hrun. rewrite Hrun. reflexivity.
Qed.

Lemma runs_on_empty_tables_witness :
  dropna (skipn 1 (firstn 2 sample_rows)) = []
  /\ fst (after_standardize select_all (skipn 1 (firstn 2 sample_rows)) page_head)
     = Done tt.
Proof.
  assert (Hempty : dropna (skipn 1 (firstn 2 sample_rows)) = []) by reflexivity.
  split; [exact Hempty|].
  rewrite (runs_on_empty_tables select_all (skipn 1 (firstn 2 sample_rows))
             page_head Hempty).
  reflexivity.
Defined.

Lemma basic_cleaning_cells_witness :
  In [Some "4"; Some "Sunny"; None; Some "Van"; Some "1000";
      Some "150"; None; Some "Rural"; Some "Food"]
     (data (basic_cleaning sample_file))
  /\ ~ In "Sunny" missing_texts.
Proof.
  assert (Hrecord : In [Some "4"; Some "Sunny"; None; Some "Van"; Some "1000";
                        Some "150"; None; Some "Rural"; Some "Food"]
                       (data (basic_cleaning sample_file))).
  { vm_compute. do 3 right. left. reflexivity. }
  split; [exact Hrecord|].
  refine (proj1 (proj2 (basic_cleaning_cells sample_file)) _ (Some "Sunny")
            Hrecord _ "Sunny" eq_refl).
  simpl. right. left. reflexivity.
Defined.

Lemma groupby_mean_groups_witness :
  In sample_record_middle sample_work
  /\ In "Rainy" (map fst (groupby_mean weather sample_work)).
Proof.
  assert (Hin : In sample_record_middle sample_work).
  { vm_compute. right. left. reflexivity. }
  split; [exact Hin|].
  destruct (groupby_mean_groups weather sample_work) as (_ & _ & Hmem & _).
  refine (proj2 (Hmem "Rainy") _).
  exists sample_record_middle. split; [exact Hin | reflexivity].
Defined.
